(** * resume_parser: a shallow embedding of [resume_parser.py]

    The program reads the text of a PDF resume, classifies its lines into
    personal information, education, work experience and skills, prints the
    result and saves it as JSON.

    Layout of this development:
    - Python strings (code points) and the [str] methods the program calls;
    - Python objects ([None], [bool], [str], [list], [dict]) and exceptions;
    - the [json] encoder and decoder of the standard library;
    - the world the program runs in (file system, log, console) and what
      its host decides for it (console encoding, access to paths, recursion
      limit);
    - the program itself, function by function;
    - lemmas about the library layer, then the properties of the program. *)

From Stdlib Require Import NArith ZArith String Ascii Bool Lia.
From stdpp Require Import base list.

Local Open Scope N_scope.
Local Open Scope list_scope.

(** ** Python strings *)

(** A [str] is a sequence of Unicode code points.  Every code point of a real
    [str] is below [0x110000] ([valid_str]); lone surrogates are allowed, as
    in Python. *)
Definition pystr : Type := list N.

(** A string literal of the source, as code points. *)
Definition py (s : string) : pystr := map N_of_ascii (list_ascii_of_string s).

Definition valid_char (c : N) : bool := c <? 0x110000.
Definition valid_str (s : pystr) : bool := forallb valid_char s.

(** [a == b] on two [str]. *)
Fixpoint str_eqb (a b : pystr) : bool :=
  match a, b with
  | [], [] => true
  | x :: a', y :: b' => (x =? y) && str_eqb a' b'
  | _, _ => false
  end.

(** [str.isspace] on one character, the test [str.strip()] uses: the ASCII
    controls 0x09-0x0D and 0x1C-0x1F, the space, and the Unicode spaces. *)
Definition isspace (c : N) : bool :=
  ((0x09 <=? c) && (c <=? 0x0D)) || ((0x1C <=? c) && (c <=? 0x20))
  || (c =? 0x85) || (c =? 0xA0) || (c =? 0x1680)
  || ((0x2000 <=? c) && (c <=? 0x200A))
  || (c =? 0x2028) || (c =? 0x2029) || (c =? 0x202F) || (c =? 0x205F)
  || (c =? 0x3000).

(** [s.lstrip()], [s.rstrip()], [s.strip()]. *)
Fixpoint lstrip (s : pystr) : pystr :=
  match s with
  | [] => []
  | c :: s' => if isspace c then lstrip s' else s
  end.

Definition rstrip (s : pystr) : pystr := reverse (lstrip (reverse s)).

Definition strip (s : pystr) : pystr := rstrip (lstrip s).

(** [s.split(sep)] for a one-character separator: never the empty list. *)
Fixpoint split (sep : N) (s : pystr) : list pystr :=
  match s with
  | [] => [[]]
  | c :: s' =>
      if c =? sep then [] :: split sep s'
      else match split sep s' with
           | [] => [[c]]
           | l :: ls => (c :: l) :: ls
           end
  end.

(** [sep.join(parts)]. *)
Fixpoint join (sep : pystr) (parts : list pystr) : pystr :=
  match parts with
  | [] => []
  | [p] => p
  | p :: ps => p ++ sep ++ join sep ps
  end.

(** [s.startswith(p)]. *)
Fixpoint startswith (p s : pystr) : bool :=
  match p, s with
  | [], _ => true
  | _ :: _, [] => false
  | a :: p', b :: s' => (a =? b) && startswith p' s'
  end.

(** [sub in s]: substring containment. *)
Fixpoint contains (sub s : pystr) : bool :=
  startswith sub s ||
  match s with
  | [] => false
  | _ :: s' => contains sub s'
  end.

(** [s.replace(old, new)]: every occurrence of [old], scanning from the left
    without overlap.  [skip] counts the characters of a matched occurrence
    still to be dropped. *)
Fixpoint replace_from (old new : pystr) (skip : nat) (s : pystr) : pystr :=
  match s with
  | [] => []
  | c :: s' =>
      match skip with
      | S k => replace_from old new k s'
      | O =>
          if startswith old s
          then new ++ replace_from old new (pred (length old)) s'
          else c :: replace_from old new 0 s'
      end
  end.

Definition replace (old new s : pystr) : pystr :=
  match old with
  | [] => new ++ flat_map (fun c => c :: new) s
  | _ :: _ => replace_from old new 0 s
  end.

(** ** Python objects *)

(** The values the program builds and serialises.  A [dict] is kept as the
    list of its items in insertion order (the order [json.dump] writes them
    in); its keys are [str] and pairwise different. *)
Unset Elimination Schemes.
Inductive pyval : Type :=
| PNone
| PBool (b : bool)
| PStr (s : pystr)
| PList (l : list pyval)
| PDict (d : list (pystr * pyval)).
Set Elimination Schemes.

Definition pydict : Type := list (pystr * pyval).

(** [d.get(k)] on the items of a dict ([None] when the key is absent).  The
    same association lists, with other values, serve as the file system. *)
Fixpoint dict_get {V : Type} (d : list (pystr * V)) (k : pystr) : option V :=
  match d with
  | [] => None
  | (k', v) :: d' => if str_eqb k' k then Some v else dict_get d' k
  end.

(** [d[k] = v]: an existing key keeps its place, a new key goes last. *)
Fixpoint dict_set {V : Type} (d : list (pystr * V)) (k : pystr) (v : V)
    : list (pystr * V) :=
  match d with
  | [] => [(k, v)]
  | (k', v') :: d' =>
      if str_eqb k' k then (k', v) :: d' else (k', v') :: dict_set d' k v
  end.

Definition dict_keys {V : Type} (d : list (pystr * V)) : list pystr := map fst d.

(** [dict(pairs)]: later pairs overwrite earlier ones. *)
Definition dict_of_pairs (pairs : list (pystr * pyval)) : pydict :=
  fold_left (fun d kv => dict_set d (fst kv) (snd kv)) pairs [].

(** ** Exceptions *)

(** The exceptions the program can meet.  [UnicodeEncodeError] is what
    [print] raises for text the console cannot encode, [RecursionError] what
    the interpreter raises when calls nest too deep.  The last two are not
    Python's: [NumberLiteral] marks a JSON number, which has no counterpart
    among the values above, and [FuelExhausted] a decoder run that was given
    too small a bound. *)

Inductive exn : Type :=
| KeyError (key : pystr)
| TypeError
| AttributeError
| OSError (path : pystr)
| PdfError (msg : pystr)
| JSONDecodeError (msg : pystr)
| UnicodeEncodeError
| RecursionError
| NumberLiteral
| FuelExhausted.

(** The result of a call: a value or a raised exception. *)
Inductive outcome (A : Type) : Type :=
| Ok (a : A)
| Raise (e : exn).
Arguments Ok {A} a.
Arguments Raise {A} e.

Definition obind {A B} (m : outcome A) (f : A -> outcome B) : outcome B :=
  match m with
  | Ok a => f a
  | Raise e => Raise e
  end.

Declare Scope outcome_scope.
Delimit Scope outcome_scope with outcome.
Notation "x <- m ;; k" := (obind m (fun x => k))
  (at level 100, m at next level, right associativity) : outcome_scope.
Local Open Scope outcome_scope.

(** [obj[key]] with a [str] key. *)
Definition getitem (obj : pyval) (key : pystr) : outcome pyval :=
  match obj with
  | PDict d =>
      match dict_get d key with
      | Some v => Ok v
      | None => Raise (KeyError key)
      end
  | _ => Raise TypeError
  end.

(** [obj[key] = v] with a [str] key; the object after the assignment. *)
Definition setitem (obj : pyval) (key : pystr) (v : pyval) : outcome pyval :=
  match obj with
  | PDict d => Ok (PDict (dict_set d key v))
  | _ => Raise TypeError
  end.

(** [obj.append(v)]; the object after the call. *)
Definition append (obj : pyval) (v : pyval) : outcome pyval :=
  match obj with
  | PList l => Ok (PList (l ++ [v]))
  | _ => Raise AttributeError
  end.

(** The items a [for] loop over [obj] visits. *)
Definition py_iter (obj : pyval) : outcome (list pyval) :=
  match obj with
  | PList l => Ok l
  | PDict d => Ok (map (fun kv => PStr (fst kv)) d)
  | PStr s => Ok (map (fun c => PStr [c]) s)
  | _ => Raise TypeError
  end.

(** [obj[key]] mutated in place by [f] (an item assignment or a method call
    on it): afterwards [obj] holds the mutated item under [key]. *)
Definition mutate_item (obj : pyval) (key : pystr)
    (f : pyval -> outcome pyval) : outcome pyval :=
  item <- getitem obj key ;;
  item' <- f item ;;
  setitem obj key item'.

(** [key in obj] with a [str] key. *)
Definition py_in (key : pystr) (obj : pyval) : outcome bool :=
  match obj with
  | PDict d => Ok (match dict_get d key with Some _ => true | None => false end)
  | PList l =>
      Ok (existsb (fun v => match v with PStr s => str_eqb s key | _ => false end) l)
  | PStr s => Ok (contains key s)
  | _ => Raise TypeError
  end.

(** ** The [json] module: encoder *)

(** One lower-case hexadecimal digit, and ['{0:04x}'.format(n)] for
    [n < 0x10000], the only range the encoder formats. *)
Definition hexdigit (d : N) : N :=
  if d <? 10 then 0x30 + d else 0x61 + (d - 10).

Definition format_04x (n : N) : pystr :=
  [hexdigit (n / 0x1000 mod 16); hexdigit (n / 0x100 mod 16);
   hexdigit (n / 0x10 mod 16); hexdigit (n mod 16)].

(** The replacement of one character matched by [ESCAPE_ASCII], that is a
    backslash, a double quote, or anything outside [' '..'~']; any other
    character stands for itself. *)
Definition escape_char (c : N) : pystr :=
  if c =? 0x5C then [0x5C; 0x5C]
  else if c =? 0x22 then [0x5C; 0x22]
  else if (0x20 <=? c) && (c <=? 0x7E) then [c]
  else if c =? 0x08 then [0x5C; 0x62]
  else if c =? 0x0C then [0x5C; 0x66]
  else if c =? 0x0A then [0x5C; 0x6E]
  else if c =? 0x0D then [0x5C; 0x72]
  else if c =? 0x09 then [0x5C; 0x74]
  else if c <? 0x10000 then [0x5C; 0x75] ++ format_04x c
  else
    let n := c - 0x10000 in
    let s1 := N.lor 0xD800 (N.land (N.shiftr n 10) 0x3FF) in
    let s2 := N.lor 0xDC00 (N.land n 0x3FF) in
    [0x5C; 0x75] ++ format_04x s1 ++ [0x5C; 0x75] ++ format_04x s2.

(** [py_encode_basestring_ascii]. *)
Definition encode_basestring_ascii (s : pystr) : pystr :=
  0x22 :: flat_map escape_char s ++ [0x22].

(** [s * n]. *)
Definition str_mul (s : pystr) (n : nat) : pystr := concat (repeat s n).

Section Iterencode.
(** [_indent], [_item_separator] and [_key_separator] of
    [_make_iterencode]. *)
Variable indent : pystr.
Variable item_separator : pystr.
Variable key_separator : pystr.

Definition newline_indent (level : nat) : pystr :=
  0x0A :: str_mul indent level.

(** The chunks [_iterencode] yields when it runs to its end, concatenated:
    the complete JSON text of [o].  This is a function of the value alone;
    what a run really writes is [iterencode] below. *)
Fixpoint complete_text (level : nat) (o : pyval) : pystr :=
  match o with
  | PStr s => encode_basestring_ascii s
  | PNone => py "null"
  | PBool true => py "true"
  | PBool false => py "false"
  | PList [] => py "[]"
  | PList lst =>
      py "[" ++ newline_indent (S level)
      ++ join (item_separator ++ newline_indent (S level))
              (map (complete_text (S level)) lst)
      ++ newline_indent level ++ py "]"
  | PDict [] => py "{}"
  | PDict dct =>
      py "{" ++ newline_indent (S level)
      ++ join (item_separator ++ newline_indent (S level))
              (map (fun kv => encode_basestring_ascii (fst kv) ++ key_separator
                              ++ complete_text (S level) (snd kv)) dct)
      ++ newline_indent level ++ py "}"
  end.

(** The chunks of the items of a container in order, [sep] before every
    item but the first; an item that stops early ends the run. *)
Fixpoint chain (sep : pystr) (results : list (pystr * bool)) : pystr * bool :=
  match results with
  | [] => ([], true)
  | [r] => r
  | r :: rest =>
      if snd r then (fst r ++ sep ++ fst (chain sep rest), snd (chain sep rest))
      else r
  end.

(** [_iterencode], with [_iterencode_list] and [_iterencode_dict] inlined:
    the text yielded, and whether the run came to its end.  Every container
    is one more nested generator, so a run can fail with [RecursionError];
    [room] is the number of nested containers the interpreter still allows.
    An empty container needs room for itself; one with items also needs
    room for the calls it makes for them, and leaves one less to its items.
    A generator that cannot start yields nothing, and what was yielded
    before it stays: the opening bracket, the separators, the key. *)
Fixpoint iterencode (room level : nat) (o : pyval) {struct o} : pystr * bool :=
  match o with
  | PStr s => (encode_basestring_ascii s, true)
  | PNone => (py "null", true)
  | PBool true => (py "true", true)
  | PBool false => (py "false", true)
  | PList [] =>
      match room with
      | O => ([], false)
      | S _ => (py "[]", true)
      end
  | PList lst =>
      match room with
      | S (S r) =>
          let body := chain (item_separator ++ newline_indent (S level))
                        (map (iterencode (S r) (S level)) lst) in
          (py "[" ++ newline_indent (S level) ++ fst body
           ++ (if snd body then newline_indent level ++ py "]" else []),
           snd body)
      | _ => ([], false)
      end
  | PDict [] =>
      match room with
      | O => ([], false)
      | S _ => (py "{}", true)
      end
  | PDict dct =>
      match room with
      | S (S r) =>
          let body := chain (item_separator ++ newline_indent (S level))
                        (map (fun kv =>
                                let value := iterencode (S r) (S level) (snd kv) in
                                (encode_basestring_ascii (fst kv) ++ key_separator
                                 ++ fst value, snd value)) dct) in
          (py "{" ++ newline_indent (S level) ++ fst body
           ++ (if snd body then newline_indent level ++ py "}" else []),
           snd body)
      | _ => ([], false)
      end
  end.
End Iterencode.

(** The complete JSON text of [obj] for [indent=n]: with an indent the item
    separator is [","] and the key separator [": "]. *)
Definition json_text (n : nat) (obj : pyval) : pystr :=
  complete_text (str_mul (py " ") n) (py ",") (py ": ") 0 obj.

(** ** The [json] module: decoder *)

(** The value of one hexadecimal digit, either case. *)
Definition hexval (c : N) : option N :=
  if (0x30 <=? c) && (c <=? 0x39) then Some (c - 0x30)
  else if (0x61 <=? c) && (c <=? 0x66) then Some (c - 0x61 + 10)
  else if (0x41 <=? c) && (c <=? 0x46) then Some (c - 0x41 + 10)
  else None.

(** [_decode_uXXXX] on the four characters after the [u]: four hexadecimal
    digits, as the C scanner requires. *)
Definition decode_uXXXX (h1 h2 h3 h4 : N) : outcome N :=
  match hexval h1, hexval h2, hexval h3, hexval h4 with
  | Some a, Some b, Some c, Some d => Ok (0x1000 * a + 0x100 * b + 0x10 * c + d)
  | _, _, _, _ => Raise (JSONDecodeError (py "Invalid \uXXXX escape"))
  end.

(** The table [BACKSLASH]. *)
Definition BACKSLASH (esc : N) : option N :=
  if esc =? 0x22 then Some 0x22
  else if esc =? 0x5C then Some 0x5C
  else if esc =? 0x2F then Some 0x2F
  else if esc =? 0x62 then Some 0x08
  else if esc =? 0x66 then Some 0x0C
  else if esc =? 0x6E then Some 0x0A
  else if esc =? 0x72 then Some 0x0D
  else if esc =? 0x74 then Some 0x09
  else None.

Definition is_high_surrogate (c : N) : bool := (0xD800 <=? c) && (c <=? 0xDBFF).
Definition is_low_surrogate (c : N) : bool := (0xDC00 <=? c) && (c <=? 0xDFFF).

(** [_append(char)] followed by the rest of the scan. *)
Definition push_char (c : N) (r : outcome (pystr * pystr)) : outcome (pystr * pystr) :=
  match r with
  | Ok (str, rest) => Ok (c :: str, rest)
  | Raise e => Raise e
  end.

(** [py_scanstring(s, end, strict=True)]: [s] is the text after the opening
    quote; the result is the decoded string and the text after the closing
    quote. *)
Fixpoint scanstring (s : pystr) : outcome (pystr * pystr) :=
  match s with
  | [] => Raise (JSONDecodeError (py "Unterminated string starting at"))
  | c :: s1 =>
      if c =? 0x22 then Ok ([], s1)
      else if c =? 0x5C then
        match s1 with
        | [] => Raise (JSONDecodeError (py "Unterminated string starting at"))
        | esc :: s2 =>
            if esc =? 0x75 then
              match s2 with
              | h1 :: h2 :: h3 :: h4 :: s3 =>
                  match decode_uXXXX h1 h2 h3 h4 with
                  | Raise e => Raise e
                  | Ok uni =>
                      if is_high_surrogate uni then
                        match s3 with
                        | b :: u :: s4 =>
                            if (b =? 0x5C) && (u =? 0x75) then
                              match s4 with
                              | g1 :: g2 :: g3 :: g4 :: s5 =>
                                  match decode_uXXXX g1 g2 g3 g4 with
                                  | Raise e => Raise e
                                  | Ok uni2 =>
                                      if is_low_surrogate uni2 then
                                        push_char
                                          (0x10000 + N.lor (N.shiftl (uni - 0xD800) 10)
                                                           (uni2 - 0xDC00))
                                          (scanstring s5)
                                      else push_char uni (scanstring s3)
                                  end
                              | _ => Raise (JSONDecodeError (py "Invalid \uXXXX escape"))
                              end
                            else push_char uni (scanstring s3)
                        | _ => push_char uni (scanstring s3)
                        end
                      else push_char uni (scanstring s3)
                  end
              | _ => Raise (JSONDecodeError (py "Invalid \uXXXX escape"))
              end
            else
              match BACKSLASH esc with
              | Some char => push_char char (scanstring s2)
              | None => Raise (JSONDecodeError (py "Invalid \escape"))
              end
        end
      else if c <? 0x20 then Raise (JSONDecodeError (py "Invalid control character at"))
      else push_char c (scanstring s1)
  end.

(** [WHITESPACE.match(s, end).end()]: skip [' '], ['\t'], ['\n'], ['\r']. *)
Definition is_json_ws (c : N) : bool :=
  (c =? 0x20) || (c =? 0x09) || (c =? 0x0A) || (c =? 0x0D).

Fixpoint skip_ws (s : pystr) : pystr :=
  match s with
  | [] => []
  | c :: s' => if is_json_ws c then skip_ws s' else s
  end.

(** [JSONArray]: [s] is the text after the opening bracket, [scan_once] the
    scanner for the items.  [bound] limits the number of items read; the text
    length is always enough. *)
Fixpoint array_items (scan_once : pystr -> outcome (pyval * pystr))
    (bound : nat) (s : pystr) (values : list pyval) : outcome (pyval * pystr) :=
  match bound with
  | O => Raise FuelExhausted
  | S bound' =>
      r <- scan_once s ;;
      let values' := values ++ [fst r] in
      match skip_ws (snd r) with
      | c :: s1 =>
          if c =? 0x5D then Ok (PList values', s1)
          else if c =? 0x2C then array_items scan_once bound' (skip_ws s1) values'
          else Raise (JSONDecodeError (py "Expecting ',' delimiter"))
      | [] => Raise (JSONDecodeError (py "Expecting ',' delimiter"))
      end
  end.

Definition JSONArray (scan_once : pystr -> outcome (pyval * pystr))
    (s : pystr) : outcome (pyval * pystr) :=
  match skip_ws s with
  | c :: s1 =>
      if c =? 0x5D then Ok (PList [], s1)
      else array_items scan_once (length s) (skip_ws s) []
  | [] => array_items scan_once (length s) [] []
  end.

(** [JSONObject]: [s] is the text after the opening brace.  In
    [object_items], [s] is the text after the opening quote of a key. *)
Fixpoint object_items (scan_once : pystr -> outcome (pyval * pystr))
    (bound : nat) (s : pystr) (pairs : list (pystr * pyval))
    : outcome (pyval * pystr) :=
  match bound with
  | O => Raise FuelExhausted
  | S bound' =>
      k <- scanstring s ;;
      match skip_ws (snd k) with
      | c :: s1 =>
          if c =? 0x3A then
            r <- scan_once (skip_ws s1) ;;
            let pairs' := pairs ++ [(fst k, fst r)] in
            match skip_ws (snd r) with
            | c1 :: s2 =>
                if c1 =? 0x7D then Ok (PDict (dict_of_pairs pairs'), s2)
                else if c1 =? 0x2C then
                  match skip_ws s2 with
                  | q :: s3 =>
                      if q =? 0x22 then object_items scan_once bound' s3 pairs'
                      else Raise (JSONDecodeError
                             (py "Expecting property name enclosed in double quotes"))
                  | [] => Raise (JSONDecodeError
                             (py "Expecting property name enclosed in double quotes"))
                  end
                else Raise (JSONDecodeError (py "Expecting ',' delimiter"))
            | [] => Raise (JSONDecodeError (py "Expecting ',' delimiter"))
            end
          else Raise (JSONDecodeError (py "Expecting ':' delimiter"))
      | [] => Raise (JSONDecodeError (py "Expecting ':' delimiter"))
      end
  end.

Definition JSONObject (scan_once : pystr -> outcome (pyval * pystr))
    (s : pystr) : outcome (pyval * pystr) :=
  match skip_ws s with
  | c :: s1 =>
      if c =? 0x7D then Ok (PDict [], s1)
      else if c =? 0x22 then object_items scan_once (length s) s1 []
      else Raise (JSONDecodeError
             (py "Expecting property name enclosed in double quotes"))
  | [] => Raise (JSONDecodeError
             (py "Expecting property name enclosed in double quotes"))
  end.

(** Does the text start a JSON number, [NaN], [Infinity] or [-Infinity]? *)
Definition starts_number (s : pystr) : bool :=
  match s with
  | [] => false
  | c :: s' =>
      ((0x30 <=? c) && (c <=? 0x39))
      || ((c =? 0x2D) &&
          match s' with
          | d :: _ => (0x30 <=? d) && (d <=? 0x39)
          | [] => false
          end)
      || startswith (py "NaN") s || startswith (py "Infinity") s
      || startswith (py "-Infinity") s
  end.

(** [_scan_once]: [depth] bounds the nesting of arrays and objects. *)
Fixpoint scan_once (depth : nat) (s : pystr) : outcome (pyval * pystr) :=
  match depth with
  | O => Raise FuelExhausted
  | S depth' =>
      match s with
      | [] => Raise (JSONDecodeError (py "Expecting value"))
      | nextchar :: s' =>
          if nextchar =? 0x22 then
            r <- scanstring s' ;; Ok (PStr (fst r), snd r)
          else if nextchar =? 0x7B then JSONObject (scan_once depth') s'
          else if nextchar =? 0x5B then JSONArray (scan_once depth') s'
          else if startswith (py "null") s then Ok (PNone, drop 4 s)
          else if startswith (py "true") s then Ok (PBool true, drop 4 s)
          else if startswith (py "false") s then Ok (PBool false, drop 5 s)
          else if starts_number s then Raise NumberLiteral
          else Raise (JSONDecodeError (py "Expecting value"))
      end
  end.

(** [json.loads(s)], that is [JSONDecoder.decode].  A text cannot nest
    deeper than it is long, so the bound given to [scan_once] never runs
    out.  The recursion limit of the interpreter, which the decoder meets
    on a text nested some thousand levels deep, is left out: below, the
    decoder reads the text of a record, which is two levels deep. *)
Definition json_loads (s : pystr) : outcome pyval :=
  r <- scan_once (S (length s)) (skip_ws s) ;;
  match skip_ws (snd r) with
  | [] => Ok (fst r)
  | _ :: _ => Raise (JSONDecodeError (py "Extra data"))
  end.

(** ** The world the program runs in *)

Inductive level : Type := INFO | WARNING | ERROR.

(** The pieces of a formatted message (an f-string): literal text, an
    interpolated value, an interpolated exception. *)
Inductive part : Type :=
| Lit (s : pystr)
| Val (v : pyval)
| Exc (e : exn).

(** What a run does to its surroundings, in order.  [ScanLine] is a ghost
    event: it records one iteration of the line loop of [parse_pdf_resume]. *)
Inductive event : Type :=
| Log (lvl : level) (msg : list part)
| Print (msg : list part)
| OpenPdf (path : pystr)
| ScanLine (line : pystr).

Inductive node : Type :=
| Directory
| RegularFile (data : pystr).

(** The files the program can see, by the path string it uses for them, and
    the events so far.  Two strings that name one file are not identified:
    what is stated below about a file is stated for the path it was opened
    by. *)
Record world : Type := World {
  fs : list (pystr * node);
  events : list event
}.

(** What the program cannot decide and its host does: whether the console
    can encode a line that interpolates a value ([print] raises
    [UnicodeEncodeError] when it cannot, for instance for a lone surrogate),
    whether a path can be opened for writing (its directory exists, access
    is granted, ...), and how many nested containers [json.dump] can enter
    before the recursion limit of the interpreter. *)
Class host : Type := Host {
  console_accepts : list part -> bool;
  may_write : pystr -> bool;
  recursion_room : nat
}.

(** A computation in the world: a result or an exception, and the world
    afterwards. *)
Definition M (A : Type) : Type := world -> outcome A * world.

Definition ret {A} (a : A) : M A := fun w => (Ok a, w).
Definition raise {A} (e : exn) : M A := fun w => (Raise e, w).
Definition lift {A} (o : outcome A) : M A := fun w => (o, w).

Definition bind {A B} (m : M A) (f : A -> M B) : M B :=
  fun w =>
    match m w with
    | (Ok a, w') => f a w'
    | (Raise e, w') => (Raise e, w')
    end.

Notation "x <~ m ;; k" := (bind m (fun x => k))
  (at level 100, m at next level, right associativity) : outcome_scope.

(** [try: m except ...: handler]. *)
Definition try_except {A} (m : M A) (handler : exn -> M A) : M A :=
  fun w =>
    match m w with
    | (Ok a, w') => (Ok a, w')
    | (Raise e, w') => handler e w'
    end.

Definition emit (e : event) : M unit :=
  fun w => (Ok tt, World (fs w) (events w ++ [e])).

(** [os.path.isfile(path)]. *)
Definition isfile (path : pystr) : M bool :=
  fun w =>
    (Ok match dict_get (fs w) path with
        | Some (RegularFile _) => true
        | _ => false
        end, w).

(** [open(path, 'w')]: a directory cannot be opened for writing, and the
    host may refuse any other path; otherwise the file is created or
    truncated. *)
Definition open_w `{host} (path : pystr) : M unit :=
  fun w =>
    match dict_get (fs w) path with
    | Some Directory => (Raise (OSError path), w)
    | _ =>
        if may_write path then
          (Ok tt, World (dict_set (fs w) path (RegularFile [])) (events w))
        else (Raise (OSError path), w)
    end.

(** [json.dump(obj, f, indent=n)] on the file just opened at [path]: the
    chunks are written as they are yielded, so a dump that stops early
    leaves what it had written. *)
Definition json_dump `{host} (obj : pyval) (path : pystr) (n : nat) : M unit :=
  fun w =>
    let written :=
      iterencode (str_mul (py " ") n) (py ",") (py ": ") recursion_room 0 obj in
    (if snd written then Ok tt else Raise RecursionError,
     World (dict_set (fs w) path (RegularFile (fst written))) (events w)).

(** The lines whose text is fixed by the program: they are ASCII, which every
    console encodes. *)
Definition literal (msg : list part) : bool :=
  forallb (fun p => match p with Lit _ => true | _ => false end) msg.

(** [print(msg)]: the line appears, or [UnicodeEncodeError] is raised and
    nothing of it does. *)
Definition print `{host} (msg : list part) : M unit :=
  if literal msg || console_accepts msg then emit (Print msg)
  else raise UnicodeEncodeError.

(** A host for the examples: a UTF-8 console, which encodes every character
    but a surrogate (a string inside a list or dict is shown by its [repr],
    which escapes them), every path writable, and room for 64 nested
    containers. *)
Definition utf8_accepts (msg : list part) : bool :=
  forallb (fun p =>
             match p with
             | Val (PStr s) =>
                 forallb (fun c => negb (is_high_surrogate c || is_low_surrogate c)) s
             | _ => true
             end) msg.

#[global] Instance sample_host : host := Host utf8_accepts (fun _ => true) 64.

(** ** The program *)

(** [resume_data] as [parse_pdf_resume] creates it. *)
Definition resume_data_init : pyval :=
  PDict [(py "personal_info", PDict []);
         (py "education", PList []);
         (py "work_experience", PList []);
         (py "skills", PList [])].

(** [section == name], where [section] is [None] or a [str]. *)
Definition section_is (section : option pystr) (name : pystr) : bool :=
  match section with
  | Some s => str_eqb s name
  | None => false
  end.

(** The body of the line loop of [parse_pdf_resume], on the local variables
    [resume_data] and [section]. *)
Definition loop_body (st : pyval * option pystr) (line : pystr)
    : outcome (pyval * option pystr) :=
  let resume_data := fst st in
  let section := snd st in
  let line := strip line in
  if contains (py "Name:") line then
    resume_data' <- mutate_item resume_data (py "personal_info") (fun info =>
      setitem info (py "name") (PStr (strip (replace (py "Name:") [] line)))) ;;
    Ok (resume_data', section)
  else if contains (py "Email:") line then
    resume_data' <- mutate_item resume_data (py "personal_info") (fun info =>
      setitem info (py "email") (PStr (strip (replace (py "Email:") [] line)))) ;;
    Ok (resume_data', section)
  else if contains (py "Education") line then
    Ok (resume_data, Some (py "education"))
  else if contains (py "Experience") line then
    Ok (resume_data, Some (py "work_experience"))
  else if contains (py "Skills") line then
    Ok (resume_data, Some (py "skills"))
  else if section_is section (py "education") then
    resume_data' <- mutate_item resume_data (py "education") (fun l =>
      append l (PStr line)) ;;
    Ok (resume_data', section)
  else if section_is section (py "work_experience") then
    resume_data' <- mutate_item resume_data (py "work_experience") (fun l =>
      append l (PStr line)) ;;
    Ok (resume_data', section)
  else if section_is section (py "skills") then
    resume_data' <- mutate_item resume_data (py "skills") (fun l =>
      append l (PStr line)) ;;
    Ok (resume_data', section)
  else Ok (resume_data, section).

(** [for line in lines: ...] in the world: every iteration leaves a
    [ScanLine] event. *)
Fixpoint for_lines (lines : list pystr) (st : pyval * option pystr)
    : M (pyval * option pystr) :=
  match lines with
  | [] => ret st
  | line :: rest =>
      _ <~ emit (ScanLine line) ;;
      st' <~ lift (loop_body st line) ;;
      for_lines rest st'
  end.

(** [not text], where [text] is [None] or a [str]. *)
Definition falsy (text : option pystr) : bool :=
  match text with
  | None => true
  | Some [] => true
  | Some (_ :: _) => false
  end.

(** The second half of [parse_pdf_resume] (from [if not text:] on): the
    line classifier, on the extracted text. *)
Definition classify_text (text : option pystr) : M pyval :=
  let resume_data := resume_data_init in
  if falsy text then
    _ <~ emit (Log WARNING [Lit (py "No text extracted from the resume.")]) ;;
    ret resume_data
  else
    let lines := split 0x0A (default [] text) in
    st <~ for_lines lines (resume_data, None) ;;
    ret (fst st).

(** [page.extract_text() for page in pdf.pages if page.extract_text()]. *)
Definition page_texts (pages : list (option pystr)) : list pystr :=
  flat_map (fun t => if falsy t then [] else [default [] t]) pages.

(** [print(f"- {entry}")] for every entry of [obj]. *)
Definition print_entries `{host} (obj : pyval) : M unit :=
  entries <~ lift (py_iter obj) ;;
  fold_right (fun entry k => _ <~ print [Lit (py "- "); Val entry] ;; k)
             (ret tt) entries.

(** [print_resume]. *)
Definition print_resume `{host} (data : pyval) : M unit :=
  _ <~ print [Lit (0x0A :: py "Personal Information:")] ;;
  info <~ lift (getitem data (py "personal_info")) ;;
  has_name <~ lift (py_in (py "name") info) ;;
  _ <~ (if has_name : bool then
          name <~ lift (getitem info (py "name")) ;;
          print [Lit (py "Name: "); Val name]
        else ret tt) ;;
  has_email <~ lift (py_in (py "email") info) ;;
  _ <~ (if has_email : bool then
          email <~ lift (getitem info (py "email")) ;;
          print [Lit (py "Email: "); Val email]
        else ret tt) ;;
  _ <~ print [Lit (0x0A :: py "Education:")] ;;
  education <~ lift (getitem data (py "education")) ;;
  _ <~ print_entries education ;;
  _ <~ print [Lit (0x0A :: py "Work Experience:")] ;;
  work <~ lift (getitem data (py "work_experience")) ;;
  _ <~ print_entries work ;;
  _ <~ print [Lit (0x0A :: py "Skills:")] ;;
  skills <~ lift (getitem data (py "skills")) ;;
  print_entries skills.

(** [save_to_json]: [json.dump(data, f, indent=4)] into the opened file;
    only an [IOError] (that is, [OSError]) is logged before it is re-raised. *)
Definition save_to_json `{host} (data : pyval) (output_file : pystr) : M unit :=
  try_except (_ <~ open_w output_file ;; json_dump data output_file 4)
    (fun e =>
       match e with
       | OSError _ =>
           _ <~ emit (Log ERROR [Lit (py "Failed to write JSON file: "); Exc e]) ;;
           raise e
       | _ => raise e
       end).

Section Program.

(** The PDF library, which is not part of the program: for the bytes of a
    file, the text [extract_text()] gives for each page ([None] when the
    page has none), or the exception that opening or extraction raises. *)
Variable pdfplumber : pystr -> outcome (list (option pystr)).
Context `{host}.

(** [with pdfplumber.open(file_path) as pdf: ... pdf.pages ...]. *)
Definition open_pdf (file_path : pystr) : M (list (option pystr)) :=
  _ <~ emit (OpenPdf file_path) ;;
  fun w =>
    match dict_get (fs w) file_path with
    | Some (RegularFile data) => (pdfplumber data, w)
    | _ => (Raise (OSError file_path), w)
    end.

(** The first half of [parse_pdf_resume]: the text of the pages that have
    some, joined by newlines; a failure is logged and re-raised. *)
Definition extract_text (file_path : pystr) : M pystr :=
  try_except
    (pages <~ open_pdf file_path ;;
     ret (join [0x0A] (page_texts pages)))
    (fun e =>
       _ <~ emit (Log ERROR [Lit (py "Failed to read PDF file: "); Exc e]) ;;
       raise e).

Definition parse_pdf_resume (file_path : pystr) : M pyval :=
  text <~ extract_text file_path ;;
  classify_text (Some text).

(** [main], after [parse_args] has given the two positional arguments. *)
Definition main (file_path output_file : pystr) : M unit :=
  exists_ <~ isfile file_path ;;
  if negb exists_ then
    _ <~ emit (Log ERROR [Lit (py "The provided file path does not exist.")]) ;;
    ret tt
  else
    resume_data <~ parse_pdf_resume file_path ;;
    _ <~ print_resume resume_data ;;
    _ <~ save_to_json resume_data output_file ;;
    emit (Log INFO [Lit (py "Resume data saved to "); Val (PStr output_file)]).

End Program.

(** Modelled from the spec: the reading side of the round trip, which the
    program does not have (it only writes).  "Parsing it back" is
    [json.load] on the file at [path]. *)
Definition load_json (path : pystr) : M pyval :=
  fun w =>
    match dict_get (fs w) path with
    | Some (RegularFile data) => (json_loads data, w)
    | _ => (Raise (OSError path), w)
    end.

(** ** The data model of the specification *)

(** A resume record: the personal information as the items of a
    string-to-string map, and three lists of lines. *)
Record ResumeRecord : Type := Record_ {
  personal_info : list (pystr * pystr);
  education : list pystr;
  work_experience : list pystr;
  skills : list pystr
}.

(** The Python object of a record: the dict [parse_pdf_resume] builds. *)
Definition record_obj (r : ResumeRecord) : pyval :=
  PDict [(py "personal_info",
          PDict (map (fun kv => (fst kv, PStr (snd kv))) (personal_info r)));
         (py "education", PList (map PStr (education r)));
         (py "work_experience", PList (map PStr (work_experience r)));
         (py "skills", PList (map PStr (skills r)))].

Definition empty_record : ResumeRecord := Record_ [] [] [] [].

(** One line of the classifier on a record, as section 4.1 of the
    specification describes it. *)
Definition step_record (st : ResumeRecord * option pystr) (line : pystr)
    : ResumeRecord * option pystr :=
  let r := fst st in
  let section := snd st in
  let line := strip line in
  if contains (py "Name:") line then
    (Record_ (dict_set (personal_info r) (py "name")
                (strip (replace (py "Name:") [] line)))
             (education r) (work_experience r) (skills r), section)
  else if contains (py "Email:") line then
    (Record_ (dict_set (personal_info r) (py "email")
                (strip (replace (py "Email:") [] line)))
             (education r) (work_experience r) (skills r), section)
  else if contains (py "Education") line then (r, Some (py "education"))
  else if contains (py "Experience") line then (r, Some (py "work_experience"))
  else if contains (py "Skills") line then (r, Some (py "skills"))
  else if section_is section (py "education") then
    (Record_ (personal_info r) (education r ++ [line])
             (work_experience r) (skills r), section)
  else if section_is section (py "work_experience") then
    (Record_ (personal_info r) (education r)
             (work_experience r ++ [line]) (skills r), section)
  else if section_is section (py "skills") then
    (Record_ (personal_info r) (education r)
             (work_experience r) (skills r ++ [line]), section)
  else (r, section).

Definition run_record (lines : list pystr) (st : ResumeRecord * option pystr)
    : ResumeRecord * option pystr :=
  fold_left step_record lines st.

(** The five label rules, in the priority order of the specification. *)
Inductive rule : Type :=
| NameRule | EmailRule | EducationRule | ExperienceRule | SkillsRule.

Definition label (r : rule) : pystr :=
  match r with
  | NameRule => py "Name:"
  | EmailRule => py "Email:"
  | EducationRule => py "Education"
  | ExperienceRule => py "Experience"
  | SkillsRule => py "Skills"
  end.

Definition priority : list rule :=
  [NameRule; EmailRule; EducationRule; ExperienceRule; SkillsRule].

(** The first rule, in priority order, whose label occurs in the line. *)
Definition first_match (line : pystr) : option rule :=
  List.find (fun r => contains (label r) line) priority.

(** The effect of one rule alone on the local variables. *)
Definition apply_rule (r : rule) (st : pyval * option pystr) (line : pystr)
    : outcome (pyval * option pystr) :=
  match r with
  | NameRule =>
      resume_data' <- mutate_item (fst st) (py "personal_info") (fun info =>
        setitem info (py "name") (PStr (strip (replace (py "Name:") [] line)))) ;;
      Ok (resume_data', snd st)
  | EmailRule =>
      resume_data' <- mutate_item (fst st) (py "personal_info") (fun info =>
        setitem info (py "email") (PStr (strip (replace (py "Email:") [] line)))) ;;
      Ok (resume_data', snd st)
  | EducationRule => Ok (fst st, Some (py "education"))
  | ExperienceRule => Ok (fst st, Some (py "work_experience"))
  | SkillsRule => Ok (fst st, Some (py "skills"))
  end.

(** Rule 6: a line without any label goes to the list of the current
    section, or is dropped when there is none. *)
Definition store_line (st : pyval * option pystr) (line : pystr)
    : outcome (pyval * option pystr) :=
  match List.find (section_is (snd st))
          [py "education"; py "work_experience"; py "skills"] with
  | Some key =>
      resume_data' <- mutate_item (fst st) key (fun l => append l (PStr line)) ;;
      Ok (resume_data', snd st)
  | None => Ok st
  end.

(** The classifier by first match: only the first matching rule acts. *)
Definition first_match_step (st : pyval * option pystr) (line : pystr)
    : outcome (pyval * option pystr) :=
  let line := strip line in
  match first_match line with
  | Some r => apply_rule r st line
  | None => store_line st line
  end.

(** Strings, values and records that [json] reads back as they were written:
    valid code points, no high surrogate directly followed by a low one, and
    dict keys pairwise different. *)
Fixpoint no_surrogate_pair (s : pystr) : bool :=
  match s with
  | a :: (b :: _) as s' =>
      negb (is_high_surrogate a && is_low_surrogate b) && no_surrogate_pair s'
  | _ => true
  end.

Definition stable_str (s : pystr) : bool := valid_str s && no_surrogate_pair s.

Fixpoint distinct_keys (keys : list pystr) : bool :=
  match keys with
  | [] => true
  | k :: ks => negb (existsb (str_eqb k) ks) && distinct_keys ks
  end.

Fixpoint stable_val (v : pyval) : bool :=
  match v with
  | PNone | PBool _ => true
  | PStr s => stable_str s
  | PList l => forallb stable_val l
  | PDict d =>
      distinct_keys (map fst d)
      && forallb (fun kv => stable_str (fst kv) && stable_val (snd kv)) d
  end.

Definition stable_record (r : ResumeRecord) : bool :=
  distinct_keys (map fst (personal_info r))
  && forallb (fun kv => stable_str (fst kv) && stable_str (snd kv)) (personal_info r)
  && forallb stable_str (education r)
  && forallb stable_str (work_experience r)
  && forallb stable_str (skills r).

(** The nesting depth of a value, which bounds the decoder's recursion. *)
Fixpoint depth (v : pyval) : nat :=
  match v with
  | PList l => S (fold_right (fun x n => Nat.max (depth x) n) O l)
  | PDict d => S (fold_right (fun kv n => Nat.max (depth (snd kv)) n) O d)
  | _ => 1%nat
  end.
(** ** Predicates used in the proofs *)

(** A string of whitespace only. *)
Definition blank (s : pystr) : Prop := Forall (fun c => isspace c = true) s.

(** A trimmed string: [strip] leaves it as it is. *)
Definition trimmed (s : pystr) : Prop := lstrip s = s /\ rstrip s = s.

(** A label with a character that is not whitespace at both ends. *)
Definition solid (p : pystr) : Prop :=
  (exists x q, p = x :: q /\ isspace x = false) /\
  (exists q y, p = q ++ [y] /\ isspace y = false).

(** The warning of the early return of [parse_pdf_resume]. *)
Definition no_text_warning : event :=
  Log WARNING [Lit (py "No text extracted from the resume.")].

(** The record the classifier returns, whatever the world. *)
Definition classified (text : option pystr) : ResumeRecord :=
  if falsy text then empty_record
  else fst (run_record (split 0x0A (default [] text)) (empty_record, None)).

(** [resume_data["personal_info"][key]]. *)
Definition personal_field (resume_data : pyval) (key : pystr) : outcome pyval :=
  info <- getitem resume_data (py "personal_info") ;;
  getitem info key.

(** The name and the email of a classifier state. *)
Definition name_of (st : ResumeRecord * option pystr) : option pystr :=
  dict_get (personal_info (fst st)) (py "name").

Definition email_of (st : ResumeRecord * option pystr) : option pystr :=
  dict_get (personal_info (fst st)) (py "email").

(** A resume of four lines, with the name on the second and the email on the
    third. *)
Definition name_and_email : pystr :=
  py "Resume" ++ [0x0A] ++ py "  Name: Jane Doe " ++ [0x0A]
  ++ py "Email: jane@x.com" ++ [0x0A] ++ py "Skills".

(** A blank line between two entries of the education section. *)
Definition blank_between : pystr :=
  py "Education" ++ [0x0A] ++ py "BS" ++ [0x0A] ++ [0x20; 0x09] ++ [0x0A] ++ py "MS".

(** Sample texts. *)
Definition two_names : pystr :=
  py "Name: Ann" ++ [0x0A] ++ py "Email: a@b.c" ++ [0x0A] ++ py "Name: Bob".

Definition two_emails : pystr :=
  py "Email: a@b.c" ++ [0x0A] ++ py "Email: x@y.z" ++ [0x0A] ++ py "Skills".

Definition email_then_both : pystr :=
  py "Email: a@b.c" ++ [0x0A] ++ py "Name: Bob Email: x@y.z".

(** The text after a [\uXXXX] escape of a high surrogate does not go on with
    the escape of a low surrogate. *)
Definition no_low_escape (t : pystr) : Prop :=
  match t with
  | b :: u :: s4 =>
      (b =? 0x5C) && (u =? 0x75) = true ->
      match s4 with
      | g1 :: g2 :: g3 :: g4 :: _ =>
          exists uni2, decode_uXXXX g1 g2 g3 g4 = Ok uni2 /\
                       is_low_surrogate uni2 = false
      | _ => False
      end
  | _ => True
  end.

(** JSON whitespace only. *)
Definition json_blank (a : pystr) : Prop := Forall (fun c => is_json_ws c = true) a.

(** The first character of an encoded value is neither whitespace, nor a
    closing bracket, nor a comma. *)
Definition value_start (c : N) : Prop :=
  is_json_ws c = false /\ (c =? 0x5D) = false /\ (c =? 0x7D) = false
  /\ (c =? 0x2C) = false.

(** The complete text of a value for [indent=n] at a nesting level, the
    line break there, the item separator, and one item of a dict after the
    opening quote of its key. *)
Definition encode (n : nat) : nat -> pyval -> pystr :=
  complete_text (str_mul (py " ") n) (py ",") (py ": ").

Definition newline (n : nat) : nat -> pystr :=
  newline_indent (str_mul (py " ") n).

Definition separator (n level : nat) : pystr := py "," ++ newline n level.

Definition item (n level : nat) (kv : pystr * pyval) : pystr :=
  flat_map escape_char (fst kv) ++ [0x22] ++ py ": " ++ encode n level (snd kv).

(** ** Further definitions for the properties of the program *)

(** An entry of a section list: trimmed, and without any label. *)
Definition plain_entry (e : pystr) : Prop := strip e = e /\ first_match e = None.

(** An item of [personal_info]: the key is [name] or [email], the value is
    trimmed. *)
Definition personal_item (kv : pystr * pystr) : Prop :=
  (fst kv = py "name" \/ fst kv = py "email") /\ strip (snd kv) = snd kv.

(** The three lists and the current section of a classifier state. *)
Definition sections_of (st : ResumeRecord * option pystr)
    : list pystr * list pystr * list pystr * option pystr :=
  (education (fst st), work_experience (fst st), skills (fst st), snd st).

Definition tidy (r : ResumeRecord) : Prop :=
  NoDup (dict_keys (personal_info r)) /\
  Forall personal_item (personal_info r) /\
  Forall plain_entry (education r) /\
  Forall plain_entry (work_experience r) /\
  Forall plain_entry (skills r).

Definition personal_or_plain (line : pystr) : Prop :=
  first_match line = None \/ first_match line = Some NameRule \/
  first_match line = Some EmailRule.

Definition sample_no_header : pystr :=
  py "Jane Doe" ++ [0x0A] ++ py "Email: jane@x.com" ++ [0x0A] ++ py "Python, Rocq".

(** The [print] call of [print_resume] for one entry of a list. *)
Definition entry_line (entry : pystr) : event :=
  Print [Lit (py "- "); Val (PStr entry)].

(** The [print] calls of [print_resume] for a record, in order. *)
Definition console_output (r : ResumeRecord) : list event :=
  [Print [Lit (0x0A :: py "Personal Information:")]]
  ++ match dict_get (personal_info r) (py "name") with
     | Some name => [Print [Lit (py "Name: "); Val (PStr name)]]
     | None => []
     end
  ++ match dict_get (personal_info r) (py "email") with
     | Some email => [Print [Lit (py "Email: "); Val (PStr email)]]
     | None => []
     end
  ++ [Print [Lit (0x0A :: py "Education:")]]
  ++ map entry_line (education r)
  ++ [Print [Lit (0x0A :: py "Work Experience:")]]
  ++ map entry_line (work_experience r)
  ++ [Print [Lit (0x0A :: py "Skills:")]]
  ++ map entry_line (skills r).

(** The events of the line classifier on a text. *)
Definition scan_trace (text : pystr) : list event :=
  if falsy (Some text) then [no_text_warning]
  else map ScanLine (split 0x0A text).

(** Whether the console takes a line: the program's own headers always,
    a line with a value when the host says so. *)
Definition accepted `{host} (e : event) : bool :=
  match e with
  | Print msg => literal msg || console_accepts msg
  | _ => true
  end.

(** Of the lines a run tries to print in order, those that appear, and
    whether all did: the first line the console refuses ends the run. *)
Fixpoint shown `{host} (lines : list event) : list event * bool :=
  match lines with
  | [] => ([], true)
  | e :: rest =>
      if accepted e then (e :: fst (shown rest), snd (shown rest))
      else ([], false)
  end.

(** A computation that only prints: it tries the [lines] in order. *)
Definition prints `{host} (m : M unit) (lines : list event) : Prop :=
  forall w,
    m w = (if snd (shown lines) then Ok tt else Raise UnicodeEncodeError,
           World (fs w) (events w ++ fst (shown lines))).

(** What [save_to_json] needs to return: a path that is not a directory and
    that the host lets it open, and room for the nesting of the data. *)
Definition can_save `{host} (data : pyval) (output_file : pystr) (w : world) : Prop :=
  dict_get (fs w) output_file <> Some Directory /\
  may_write output_file = true /\
  snd (iterencode (str_mul (py " ") 4) (py ",") (py ": ") recursion_room 0 data)
  = true.

Definition saved_message (output_file : pystr) : event :=
  Log INFO [Lit (py "Resume data saved to "); Val (PStr output_file)].

(** A line feed or a printable ASCII character. *)
Definition ascii_text (c : N) : bool :=
  (c =? 0x0A) || ((0x20 <=? c) && (c <=? 0x7E)).

Definition all_ascii (s : pystr) : Prop := Forall (fun c => ascii_text c = true) s.

(** A valid code point that is not a surrogate. *)
Definition scalar_char (c : N) : bool :=
  valid_char c && negb (is_high_surrogate c) && negb (is_low_surrogate c).

Definition scalar_str (s : pystr) : Prop := Forall (fun c => scalar_char c = true) s.

Definition scalar_record (r : ResumeRecord) : Prop :=
  Forall (fun kv => scalar_str (snd kv)) (personal_info r) /\
  Forall scalar_str (education r) /\
  Forall scalar_str (work_experience r) /\
  Forall scalar_str (skills r).

(** A line without any label. *)
Definition is_plain (line : pystr) : bool :=
  match first_match line with
  | None => true
  | Some _ => false
  end.

(** The number of entries of the three lists together. *)
Definition stored (r : ResumeRecord) : nat :=
  (length (education r) + length (work_experience r) + length (skills r))%nat.

(** One of the three sections is current. *)
Definition active (section : option pystr) : Prop :=
  section = Some (py "education") \/ section = Some (py "work_experience") \/
  section = Some (py "skills").

Definition sample_sections : pystr :=
  py "Education" ++ [0x0A] ++ py "BSc" ++ [0x0A] ++ [0x0A] ++ py "Name: Jane"
  ++ [0x0A] ++ py "Skills" ++ [0x0A] ++ py "Rocq".

(** * Facts about the library layer *)

(** ** Strings *)

Section StrFacts.
Implicit Types (s t p a b : pystr) (c : N).

Lemma str_eqb_eq a b : str_eqb a b = true <-> a = b.
Proof.
  revert b. induction a as [|x a IH]; intros [|y b]; simpl; split; try done.
  - intros [Hx Hab]%andb_true_iff. apply N.eqb_eq in Hx. apply IH in Hab. by subst.
  - intros [= -> ->]. rewrite N.eqb_refl. simpl. by apply IH.
Qed.

Lemma str_eqb_refl a : str_eqb a a = true.
Proof. by apply str_eqb_eq. Qed.

Lemma str_eqb_neq a b : str_eqb a b = false <-> a <> b.
Proof.
  rewrite <- str_eqb_eq. destruct (str_eqb a b); split; congruence.
Qed.

Lemma startswith_spec p s : startswith p s = true <-> exists t, s = p ++ t.
Proof.
  revert s. induction p as [|x p IH]; intros s; simpl.
  - split; eauto.
  - destruct s as [|y s].
    + split; [done | intros [t Ht]; discriminate].
    + rewrite andb_true_iff, N.eqb_eq, IH. split.
      * intros [-> [t ->]]. eauto.
      * intros [t [= -> ->]]. eauto.
Qed.

Lemma startswith_app p t : startswith p (p ++ t) = true.
Proof. apply startswith_spec. eauto. Qed.

Lemma contains_spec p s :
  contains p s = true <-> exists a b, s = a ++ p ++ b.
Proof.
  induction s as [|y s IH]; simpl.
  - rewrite orb_false_r, startswith_spec. split.
    + intros [t Ht]. exists [], t. done.
    + intros (a & b & H). destruct a; simpl in H; [eauto | discriminate].
  - rewrite orb_true_iff, startswith_spec, IH. split.
    + intros [[t Ht] | (a & b & ->)].
      * exists [], t. done.
      * exists (y :: a), b. done.
    + intros (a & b & H). destruct a as [|z a]; simpl in H.
      * left. eauto.
      * right. injection H as -> ->. eauto.
Qed.

Lemma contains_nil_r p : p <> [] -> contains p [] = false.
Proof. destruct p; simpl; done. Qed.

(** *** Whitespace and [strip] *)

Lemma lstrip_blank a s : blank a -> lstrip (a ++ s) = lstrip s.
Proof. induction 1 as [|c a Hc _ IH]; simpl; [done | by rewrite Hc]. Qed.

Lemma lstrip_blank_nil a : blank a -> lstrip a = [].
Proof. intros H. rewrite <- (app_nil_r a), lstrip_blank; done. Qed.

Lemma lstrip_solid c s : isspace c = false -> lstrip (c :: s) = c :: s.
Proof. intros H. simpl. by rewrite H. Qed.

Lemma lstrip_split s : exists a, blank a /\ s = a ++ lstrip s.
Proof.
  induction s as [|c s (a & Ha & IH)]; simpl.
  - exists []. split; [constructor | done].
  - destruct (isspace c) eqn:Hc.
    + exists (c :: a). split; [by constructor | simpl; by f_equal].
    + exists []. split; [constructor | done].
Qed.

Lemma lstrip_head s : match lstrip s with [] => True | c :: _ => isspace c = false end.
Proof.
  induction s as [|c s IH]; simpl; [done|].
  destruct (isspace c) eqn:Hc; [done | by rewrite Hc].
Qed.

Lemma lstrip_idem s : lstrip (lstrip s) = lstrip s.
Proof.
  pose proof (lstrip_head s) as H. destruct (lstrip s) as [|c t]; [done|].
  by apply lstrip_solid.
Qed.

Lemma blank_rev a : blank a -> blank (reverse a).
Proof. apply Forall_reverse. Qed.

Lemma blank_app a b : blank a -> blank b -> blank (a ++ b).
Proof. apply Forall_app_2. Qed.

Lemma rstrip_blank s b : blank b -> rstrip (s ++ b) = rstrip s.
Proof.
  intros Hb. unfold rstrip. rewrite reverse_app, lstrip_blank; [done|].
  by apply blank_rev.
Qed.

Lemma rstrip_blank_nil b : blank b -> rstrip b = [].
Proof. intros H. unfold rstrip. rewrite lstrip_blank_nil; [done | by apply blank_rev]. Qed.

Lemma rstrip_split s : exists b, blank b /\ s = rstrip s ++ b.
Proof.
  destruct (lstrip_split (reverse s)) as (a & Ha & H).
  exists (reverse a). split; [by apply blank_rev|].
  unfold rstrip. rewrite <- reverse_app, <- H. by rewrite reverse_involutive.
Qed.

Lemma rstrip_snoc s c : isspace c = false -> rstrip (s ++ [c]) = s ++ [c].
Proof.
  intros H. unfold rstrip. rewrite reverse_snoc. simpl. rewrite H.
  by rewrite reverse_cons, reverse_involutive.
Qed.

Lemma rstrip_last s :
  rstrip s = [] \/ exists t c, rstrip s = t ++ [c] /\ isspace c = false.
Proof.
  unfold rstrip. pose proof (lstrip_head (reverse s)) as H.
  destruct (lstrip (reverse s)) as [|c t]; [by left|].
  right. exists (reverse t), c. by rewrite reverse_cons.
Qed.

Lemma rstrip_idem s : rstrip (rstrip s) = rstrip s.
Proof.
  destruct (rstrip_last s) as [-> | (t & c & -> & Hc)]; [done|].
  by apply rstrip_snoc.
Qed.

Lemma rstrip_keeps_head c s :
  isspace c = false -> exists t, rstrip (c :: s) = c :: t.
Proof.
  intros Hc. destruct (rstrip_split (c :: s)) as (b & Hb & H).
  destruct (rstrip (c :: s)) as [|x t] eqn:E.
  - simpl in H. subst b. inversion Hb; congruence.
  - injection H as -> _. eauto.
Qed.

Lemma strip_trimmed s : trimmed (strip s).
Proof.
  unfold trimmed, strip. split; [|apply rstrip_idem].
  pose proof (lstrip_head s) as H. destruct (lstrip s) as [|c t]; [done|].
  destruct (rstrip_keeps_head c t H) as (u & ->). by apply lstrip_solid.
Qed.

Lemma strip_split s : exists a b, blank a /\ blank b /\ s = a ++ strip s ++ b.
Proof.
  destruct (lstrip_split s) as (a & Ha & H1).
  destruct (rstrip_split (lstrip s)) as (b & Hb & H2).
  exists a, b. unfold strip. rewrite <- H2. done.
Qed.

Lemma strip_frame a t b :
  blank a -> blank b -> trimmed t -> strip (a ++ t ++ b) = t.
Proof.
  intros Ha Hb [Hl Hr]. unfold strip. rewrite lstrip_blank by done.
  destruct t as [|c t].
  - simpl. rewrite lstrip_blank_nil by done. done.
  - assert (isspace c = false) as Hc.
    { simpl in Hl. destruct (isspace c) eqn:E; [|done].
      exfalso. pose proof (lstrip_split t) as (a' & _ & H').
      apply (f_equal length) in Hl, H'. rewrite length_app in H'. simpl in Hl. lia. }
    change ((c :: t) ++ b) with (c :: (t ++ b)). rewrite lstrip_solid by done.
    change (c :: (t ++ b)) with ((c :: t) ++ b). rewrite rstrip_blank by done. done.
Qed.

Lemma strip_blank_frame a s b : blank a -> blank b -> strip (a ++ s ++ b) = strip s.
Proof.
  intros Ha Hb. destruct (strip_split s) as (a' & b' & Ha' & Hb' & H).
  assert (a ++ s ++ b = (a ++ a') ++ strip s ++ (b' ++ b)) as ->.
  { rewrite H at 1. by rewrite <- !app_assoc. }
  apply strip_frame; auto using blank_app, strip_trimmed.
Qed.

Lemma strip_idem s : strip (strip s) = strip s.
Proof.
  rewrite <- (app_nil_r (strip s)) at 1.
  change (strip s ++ []) with ([] ++ strip s ++ []).
  apply strip_frame; [constructor | constructor | apply strip_trimmed].
Qed.

Lemma strip_nil_blank s : strip s = [] <-> blank s.
Proof.
  split.
  - intros H. destruct (strip_split s) as (a & b & Ha & Hb & E).
    rewrite H in E. rewrite E. by apply blank_app.
  - intros H. unfold strip. by rewrite lstrip_blank_nil.
Qed.

(** *** Labels: patterns with a solid character at both ends *)

Lemma solid_startswith_blank p c s :
  solid p -> isspace c = true -> startswith p (c :: s) = false.
Proof.
  intros [(x & q & -> & Hx) _] Hc. simpl.
  destruct (N.eqb_spec x c) as [->|]; [congruence | done].
Qed.

Lemma solid_not_blank p a b1 b2 : solid p -> blank b1 -> b1 = a ++ p ++ b2 -> False.
Proof.
  intros [_ (q & y & -> & Hy)] Hb ->.
  unfold blank in Hb. rewrite !Forall_app in Hb.
  destruct Hb as (_ & (_ & Hy') & _). inversion Hy'; congruence.
Qed.

Lemma startswith_blank_r p t b :
  solid p -> blank b -> startswith p (t ++ b) = startswith p t.
Proof.
  intros Hp Hb. apply eq_true_iff_eq. rewrite !startswith_spec. split.
  - intros [r Hr]. symmetry in Hr.
    apply app_eq_inv in Hr as [(k & Hpk & Hk) | (k & -> & Hk)]; [|eauto].
    destruct k as [|z k]; [exists []; by rewrite app_nil_r in *|].
    destruct Hp as [_ (q & y & Hq & Hy)]. exfalso.
    assert (last (z :: k) = Some y) as Hl.
    { rewrite <- (last_app_cons t), <- Hpk, Hq. apply last_snoc. }
    apply last_Some_elem_of in Hl.
    unfold blank in Hb. rewrite Forall_forall in Hb.
    assert (isspace y = true) by (apply Hb; rewrite Hk; apply elem_of_app; by left).
    congruence.
  - intros [r ->]. exists (r ++ b). by rewrite app_assoc.
Qed.

Lemma contains_blank_l p a s :
  solid p -> blank a -> contains p (a ++ s) = contains p s.
Proof.
  intros Hp. induction 1 as [|c a Hc _ IH]; [done|].
  simpl app. simpl contains. rewrite solid_startswith_blank by done. done.
Qed.

Lemma contains_blank p b : solid p -> blank b -> contains p b = false.
Proof.
  intros Hp Hb. destruct (contains p b) eqn:E; [|done].
  apply contains_spec in E as (a & b2 & E). exfalso. eapply solid_not_blank; eauto.
Qed.

Lemma contains_blank_r p s b :
  solid p -> blank b -> contains p (s ++ b) = contains p s.
Proof.
  intros Hp Hb. induction s as [|c s IH].
  - simpl app. rewrite contains_blank by done.
    destruct Hp as [(x & q & -> & _) _]. done.
  - change ((c :: s) ++ b) with (c :: (s ++ b)). simpl contains.
    change (c :: (s ++ b)) with ((c :: s) ++ b).
    rewrite startswith_blank_r by done. by rewrite IH.
Qed.

Lemma contains_strip p s : solid p -> contains p (strip s) = contains p s.
Proof.
  intros Hp. destruct (strip_split s) as (a & b & Ha & Hb & E).
  rewrite E at 2. rewrite contains_blank_l, contains_blank_r; done.
Qed.

(** *** [replace] *)

Lemma replace_from_drop old new k s :
  replace_from old new k s = replace_from old new 0 (drop k s).
Proof.
  revert k. induction s as [|c s IH]; intros [|k]; try done.
  simpl. apply IH.
Qed.

Lemma replace_from_match old new t :
  old <> [] ->
  replace_from old new 0 (old ++ t) = new ++ replace_from old new 0 t.
Proof.
  intros Hne. destruct old as [|x old]; [done|].
  change ((x :: old) ++ t) with (x :: (old ++ t)).
  cbn [replace_from]. change (x :: (old ++ t)) with ((x :: old) ++ t).
  rewrite startswith_app. f_equal.
  rewrite replace_from_drop. simpl. by rewrite drop_app_length.
Qed.

Lemma replace_from_skip old new c s :
  startswith old (c :: s) = false ->
  replace_from old new 0 (c :: s) = c :: replace_from old new 0 s.
Proof. intros H. cbn [replace_from]. by rewrite H. Qed.

Lemma replace_from_blank_l p new a s :
  solid p -> blank a ->
  replace_from p new 0 (a ++ s) = a ++ replace_from p new 0 s.
Proof.
  intros Hp. induction 1 as [|c a Hc _ IH]; [done|].
  simpl app. rewrite replace_from_skip by (by apply solid_startswith_blank).
  by rewrite IH.
Qed.

Lemma replace_from_blank_r p new s b :
  solid p -> blank b ->
  replace_from p new 0 (s ++ b) = replace_from p new 0 s ++ b.
Proof.
  intros Hp Hb.
  assert (p <> []) as Hne by (destruct Hp as [(x & q & -> & _) _]; done).
  remember (length s) as n eqn:Hn. revert s Hn.
  induction n as [n IH] using lt_wf_ind. intros s ->.
  destruct (startswith p s) eqn:Hs.
  - apply startswith_spec in Hs as [t ->].
    rewrite <- app_assoc, !replace_from_match by done.
    rewrite (IH (length t)); [by rewrite app_assoc | | done].
    rewrite length_app. destruct p; [done | simpl; lia].
  - destruct s as [|c s].
    + simpl app. rewrite <- (app_nil_r b) at 1.
      rewrite replace_from_blank_l by done. simpl. by rewrite app_nil_r.
    + change ((c :: s) ++ b) with (c :: (s ++ b)).
      rewrite !replace_from_skip; [| done |].
      * simpl. f_equal. apply (IH (length s)); [simpl; lia | done].
      * change (c :: (s ++ b)) with ((c :: s) ++ b).
        by rewrite startswith_blank_r.
Qed.

Lemma replace_strip p s :
  solid p ->
  strip (replace p [] s) = strip (replace p [] (strip s)).
Proof.
  intros Hp.
  assert (p <> []) as Hne by (destruct Hp as [(x & q & -> & _) _]; done).
  destruct (strip_split s) as (a & b & Ha & Hb & E).
  unfold replace. destruct p as [|x q]; [done|].
  rewrite E at 1.
  rewrite replace_from_blank_l, replace_from_blank_r by done.
  by apply strip_blank_frame.
Qed.
End StrFacts.

Lemma solid_literal x q y :
  isspace x = false -> isspace y = false -> solid (x :: q ++ [y]).
Proof. intros Hx Hy. split; [by exists x, (q ++ [y]) | by exists (x :: q), y]. Qed.

Lemma solid_Name : solid (py "Name:").
Proof. by apply (solid_literal _ (py "ame")). Qed.
Lemma solid_Email : solid (py "Email:").
Proof. by apply (solid_literal _ (py "mail")). Qed.
Lemma solid_Education : solid (py "Education").
Proof. by apply (solid_literal _ (py "ducatio")). Qed.
Lemma solid_Experience : solid (py "Experience").
Proof. by apply (solid_literal _ (py "xperienc")). Qed.
Lemma solid_Skills : solid (py "Skills").
Proof. by apply (solid_literal _ (py "kill")). Qed.

(** ** Dicts and the loop body *)

Section DictFacts.
Context {V : Type}.
Implicit Types (d : list (pystr * V)) (k : pystr) (v : V).

Lemma dict_get_set_eq d k v : dict_get (dict_set d k v) k = Some v.
Proof.
  induction d as [|[k' v'] d IH]; simpl.
  - by rewrite str_eqb_refl.
  - destruct (str_eqb k' k) eqn:E; simpl; by rewrite E.
Qed.

Lemma dict_get_set_ne d k k' v :
  k <> k' -> dict_get (dict_set d k v) k' = dict_get d k'.
Proof.
  intros Hne. induction d as [|[k0 v0] d IH]; simpl.
  - by apply str_eqb_neq in Hne as ->.
  - destruct (str_eqb k0 k) eqn:E; simpl; [|by rewrite IH].
    apply str_eqb_eq in E as ->. by apply str_eqb_neq in Hne as ->.
Qed.

Lemma dict_set_fresh d k v :
  k ∉ dict_keys d -> dict_set d k v = d ++ [(k, v)].
Proof.
  induction d as [|[k0 v0] d IH]; simpl; [done|].
  intros Hk. apply not_elem_of_cons in Hk as [Hne Hk].
  destruct (str_eqb k0 k) eqn:E.
  - apply str_eqb_eq in E. congruence.
  - by rewrite IH.
Qed.

Lemma dict_keys_set d k v :
  dict_keys (dict_set d k v) =
  match dict_get d k with
  | Some _ => dict_keys d
  | None => dict_keys d ++ [k]
  end.
Proof.
  induction d as [|[k0 v0] d IH]; simpl; [done|].
  destruct (str_eqb k0 k) eqn:E; simpl; [done|].
  rewrite IH. by destruct (dict_get d k).
Qed.
End DictFacts.

Lemma dict_set_map {V W : Type} (f : V -> W) (d : list (pystr * V)) k v :
  map (fun kv => (fst kv, f (snd kv))) (dict_set d k v)
  = dict_set (map (fun kv => (fst kv, f (snd kv))) d) k (f v).
Proof.
  induction d as [|[k0 v0] d IH]; simpl; [done|].
  destruct (str_eqb k0 k); simpl; [done | by rewrite IH].
Qed.

Lemma dict_get_map {V W : Type} (f : V -> W) (d : list (pystr * V)) k :
  dict_get (map (fun kv => (fst kv, f (snd kv))) d) k = f <$> dict_get d k.
Proof.
  induction d as [|[k0 v0] d IH]; simpl; [done|].
  destruct (str_eqb k0 k); simpl; [done | by rewrite IH].
Qed.

(** ** The loop body on records *)

Lemma resume_data_init_record : resume_data_init = record_obj empty_record.
Proof. reflexivity. Qed.

Lemma mutate_personal_info r key v :
  mutate_item (record_obj r) (py "personal_info")
    (fun info => setitem info key (PStr v))
  = Ok (record_obj (Record_ (dict_set (personal_info r) key v)
                            (education r) (work_experience r) (skills r))).
Proof.
  unfold mutate_item, record_obj. simpl.
  by rewrite (dict_set_map PStr).
Qed.

Lemma mutate_education r line :
  mutate_item (record_obj r) (py "education") (fun l => append l (PStr line))
  = Ok (record_obj (Record_ (personal_info r) (education r ++ [line])
                            (work_experience r) (skills r))).
Proof. unfold mutate_item, record_obj. simpl. by rewrite map_app. Qed.

Lemma mutate_work_experience r line :
  mutate_item (record_obj r) (py "work_experience") (fun l => append l (PStr line))
  = Ok (record_obj (Record_ (personal_info r) (education r)
                            (work_experience r ++ [line]) (skills r))).
Proof. unfold mutate_item, record_obj. simpl. by rewrite map_app. Qed.

Lemma mutate_skills r line :
  mutate_item (record_obj r) (py "skills") (fun l => append l (PStr line))
  = Ok (record_obj (Record_ (personal_info r) (education r)
                            (work_experience r) (skills r ++ [line]))).
Proof. unfold mutate_item, record_obj. simpl. by rewrite map_app. Qed.

Lemma loop_body_record r section line :
  loop_body (record_obj r, section) line
  = Ok (record_obj (fst (step_record (r, section) line)),
        snd (step_record (r, section) line)).
Proof.
  unfold loop_body, step_record. cbn [fst snd].
  generalize (strip line). intros l.
  repeat (match goal with
          | |- context [if ?b then _ else _] => destruct b
          end;
          rewrite ?mutate_personal_info, ?mutate_education,
                  ?mutate_work_experience, ?mutate_skills; try done).
Qed.

Lemma run_record_app l1 l2 st :
  run_record (l1 ++ l2) st = run_record l2 (run_record l1 st).
Proof. apply fold_left_app. Qed.

Lemma for_lines_record lines r section w :
  for_lines lines (record_obj r, section) w
  = (Ok (record_obj (fst (run_record lines (r, section))),
         snd (run_record lines (r, section))),
     World (fs w) (events w ++ map ScanLine lines)).
Proof.
  revert r section w. induction lines as [|line lines IH]; intros r section w.
  - simpl. unfold ret. rewrite app_nil_r. by destruct w.
  - cbn [for_lines]. unfold bind at 1. unfold emit at 1.
    unfold bind at 1. unfold lift at 1. rewrite loop_body_record.
    rewrite IH. cbn [fs events map run_record fold_left].
    rewrite <- app_assoc. simpl.
    by destruct (step_record (r, section) line).
Qed.

Lemma falsy_spec text : falsy text = true <-> text = None \/ text = Some [].
Proof. destruct text as [[|c s]|]; simpl; split; intros; intuition congruence. Qed.

Lemma classify_text_falsy text w :
  falsy text = true ->
  classify_text text w
  = (Ok resume_data_init, World (fs w) (events w ++ [no_text_warning])).
Proof. intros H. unfold classify_text. rewrite H. reflexivity. Qed.

Lemma classify_text_lines text w :
  falsy (Some text) = false ->
  classify_text (Some text) w
  = (Ok (record_obj (fst (run_record (split 0x0A text) (empty_record, None)))),
     World (fs w) (events w ++ map ScanLine (split 0x0A text))).
Proof.
  intros H. unfold classify_text. rewrite H. cbn [default].
  unfold bind. rewrite resume_data_init_record, for_lines_record. done.
Qed.

Lemma classify_text_result text w :
  fst (classify_text text w) = Ok (record_obj (classified text)).
Proof.
  unfold classified. destruct (falsy text) eqn:E.
  - by rewrite classify_text_falsy.
  - destruct text as [text|]; [|done]. by rewrite classify_text_lines.
Qed.

Lemma classify_text_fs text w : fs (snd (classify_text text w)) = fs w.
Proof.
  destruct (falsy text) eqn:E.
  - by rewrite classify_text_falsy.
  - destruct text as [text|]; [|done]. by rewrite classify_text_lines.
Qed.

(** ** The [json] module *)

(** ** Hexadecimal escapes *)

Lemma hexval_hexdigit d : d < 16 -> hexval (hexdigit d) = Some d.
Proof.
  intros H. unfold hexval, hexdigit.
  destruct (N.ltb_spec d 10).
  - replace ((0x30 <=? 0x30 + d) && (0x30 + d <=? 0x39)) with true
      by (symmetry; apply andb_true_iff; split; apply N.leb_le; lia).
    f_equal. lia.
  - replace ((0x30 <=? 0x61 + (d - 10)) && (0x61 + (d - 10) <=? 0x39)) with false
      by (symmetry; apply andb_false_iff; right; apply N.leb_gt; lia).
    replace ((0x61 <=? 0x61 + (d - 10)) && (0x61 + (d - 10) <=? 0x66)) with true
      by (symmetry; apply andb_true_iff; split; apply N.leb_le; lia).
    f_equal. lia.
Qed.

Lemma decode_format_04x n :
  n < 0x10000 ->
  match format_04x n with
  | [h1; h2; h3; h4] => decode_uXXXX h1 h2 h3 h4 = Ok n
  | _ => False
  end.
Proof.
  intros H. unfold format_04x, decode_uXXXX.
  rewrite !hexval_hexdigit by (apply N.mod_lt; lia).
  f_equal. zify. Z.to_euclidean_division_equations. lia.
Qed.

(** ** Surrogate arithmetic *)

Lemma lor_disjoint a b : N.land a b = 0 -> N.lor a b = a + b.
Proof.
  intros H. rewrite <- N.lxor_lor by done. symmetry. by apply N.add_nocarry_lxor.
Qed.

Lemma land_low10 a y : N.land a 0x3FF = 0 -> y < 1024 -> N.land a y = 0.
Proof.
  intros Ha Hy.
  assert (y = N.land y 0x3FF) as ->.
  { change 0x3FF with (N.ones 10). rewrite N.land_ones. symmetry.
    apply N.mod_small. exact Hy. }
  rewrite (N.land_comm y), N.land_assoc, Ha. apply N.land_0_l.
Qed.

Lemma land_3FF x : N.land x 0x3FF = x mod 1024.
Proof. change 0x3FF with (N.ones 10). apply N.land_ones. Qed.

Lemma shiftl10_low a y : y < 1024 -> N.land (N.shiftl a 10) y = 0.
Proof.
  intros Hy. apply land_low10; [|done].
  rewrite land_3FF, N.shiftl_mul_pow2.
  change (2 ^ 10) with 1024. apply N.Div0.mod_mul.
Qed.

Lemma surrogate_pair_join c :
  0x10000 <= c -> c < 0x110000 ->
  let n := c - 0x10000 in
  let s1 := N.lor 0xD800 (N.land (N.shiftr n 10) 0x3FF) in
  let s2 := N.lor 0xDC00 (N.land n 0x3FF) in
  s1 < 0x10000 /\ s2 < 0x10000 /\
  is_high_surrogate s1 = true /\ is_low_surrogate s1 = false /\
  is_low_surrogate s2 = true /\
  0x10000 + N.lor (N.shiftl (s1 - 0xD800) 10) (s2 - 0xDC00) = c.
Proof.
  intros Hlo Hhi n s1 s2.
  assert (N.land (N.shiftr n 10) 0x3FF < 1024) as H1
    by (rewrite land_3FF; apply N.mod_lt; lia).
  assert (N.land n 0x3FF < 1024) as H2
    by (rewrite land_3FF; apply N.mod_lt; lia).
  assert (s1 = 0xD800 + N.land (N.shiftr n 10) 0x3FF) as E1
    by (apply lor_disjoint, land_low10; done).
  assert (s2 = 0xDC00 + N.land n 0x3FF) as E2
    by (apply lor_disjoint, land_low10; done).
  assert (N.land (N.shiftr n 10) 0x3FF = n / 1024) as E3.
  { rewrite land_3FF, N.shiftr_div_pow2. change (2 ^ 10) with 1024.
    apply N.mod_small. subst n. zify. Z.to_euclidean_division_equations. lia. }
  repeat split.
  - lia.
  - lia.
  - unfold is_high_surrogate. apply andb_true_iff. split; apply N.leb_le; lia.
  - unfold is_low_surrogate. apply andb_false_iff. left. apply N.leb_gt. lia.
  - unfold is_low_surrogate. apply andb_true_iff. split; apply N.leb_le; lia.
  - rewrite lor_disjoint by (apply shiftl10_low; lia).
    rewrite N.shiftl_mul_pow2. change (2 ^ 10) with 1024.
    rewrite E1, E2, E3, land_3FF. subst n.
    zify. Z.to_euclidean_division_equations. lia.
Qed.

(** ** [scanstring], one step at a time *)

Lemma scanstring_plain c t :
  c <> 0x22 -> c <> 0x5C -> 0x20 <= c ->
  scanstring (c :: t) = push_char c (scanstring t).
Proof.
  intros H1 H2 H3. cbn [scanstring].
  apply N.eqb_neq in H1 as ->. apply N.eqb_neq in H2 as ->.
  apply N.ltb_ge in H3 as ->. done.
Qed.

Lemma scanstring_backslash esc char t :
  BACKSLASH esc = Some char -> esc <> 0x75 ->
  scanstring (0x5C :: esc :: t) = push_char char (scanstring t).
Proof.
  intros H1 H2. cbn [scanstring].
  change (0x5C =? 0x22) with false. change (0x5C =? 0x5C) with true. cbv iota.
  apply N.eqb_neq in H2 as ->. by rewrite H1.
Qed.

Lemma scanstring_u h1 h2 h3 h4 uni t :
  decode_uXXXX h1 h2 h3 h4 = Ok uni ->
  (is_high_surrogate uni = true -> no_low_escape t) ->
  scanstring (0x5C :: 0x75 :: h1 :: h2 :: h3 :: h4 :: t)
  = push_char uni (scanstring t).
Proof.
  intros H1 H2. cbn [scanstring].
  change (0x5C =? 0x22) with false. change (0x5C =? 0x5C) with true.
  change (0x75 =? 0x75) with true. cbv iota. rewrite H1.
  destruct (is_high_surrogate uni); [|done].
  specialize (H2 eq_refl).
  destruct t as [|b [|u s4]]; try done.
  cbn [no_low_escape] in H2.
  destruct ((b =? 0x5C) && (u =? 0x75)); [|done].
  specialize (H2 eq_refl).
  destruct s4 as [|g1 [|g2 [|g3 [|g4 s5]]]]; try done.
  destruct H2 as (uni2 & -> & ->). done.
Qed.

Lemma scanstring_u_pair h1 h2 h3 h4 g1 g2 g3 g4 uni uni2 t :
  decode_uXXXX h1 h2 h3 h4 = Ok uni ->
  decode_uXXXX g1 g2 g3 g4 = Ok uni2 ->
  is_high_surrogate uni = true ->
  is_low_surrogate uni2 = true ->
  scanstring (0x5C :: 0x75 :: h1 :: h2 :: h3 :: h4 ::
              0x5C :: 0x75 :: g1 :: g2 :: g3 :: g4 :: t)
  = push_char (0x10000 + N.lor (N.shiftl (uni - 0xD800) 10) (uni2 - 0xDC00))
              (scanstring t).
Proof.
  intros H1 H2 H3 H4. cbn [scanstring].
  change (0x5C =? 0x22) with false. change (0x5C =? 0x5C) with true.
  change (0x75 =? 0x75) with true. cbv iota. rewrite H1, H3.
  cbn [andb]. by rewrite H2, H4.
Qed.

Lemma format_04x_cons n : exists h1 h2 h3 h4, format_04x n = [h1; h2; h3; h4].
Proof. unfold format_04x. by eexists _, _, _, _. Qed.

Ltac case_escape c :=
  unfold escape_char;
  destruct (N.eqb_spec c 0x5C) as [->|?];
    [|destruct (N.eqb_spec c 0x22) as [->|?];
      [|destruct ((0x20 <=? c) && (c <=? 0x7E)) eqn:?;
        [|destruct (N.eqb_spec c 0x08) as [->|?];
          [|destruct (N.eqb_spec c 0x0C) as [->|?];
            [|destruct (N.eqb_spec c 0x0A) as [->|?];
              [|destruct (N.eqb_spec c 0x0D) as [->|?];
                [|destruct (N.eqb_spec c 0x09) as [->|?];
                  [|destruct (N.ltb_spec c 0x10000)]]]]]]]].

Lemma scanstring_escape_char c t :
  valid_char c = true ->
  (is_high_surrogate c = true -> no_low_escape t) ->
  scanstring (escape_char c ++ t) = push_char c (scanstring t).
Proof.
  intros Hv Hh. apply N.ltb_lt in Hv.
  case_escape c; try (by apply scanstring_backslash).
  - apply andb_true_iff in Heqb as [H1 H2]. apply N.leb_le in H1.
    by apply scanstring_plain.
  - pose proof (decode_format_04x c ltac:(done)) as Hd.
    destruct (format_04x_cons c) as (h1 & h2 & h3 & h4 & E). rewrite E in *.
    by apply scanstring_u.
  - destruct (surrogate_pair_join c) as (L1 & L2 & S1 & _ & S2 & J); [done..|].
    cbv zeta in *.
    pose proof (decode_format_04x _ L1) as D1.
    pose proof (decode_format_04x _ L2) as D2.
    destruct (format_04x_cons (N.lor 0xD800 (N.land (N.shiftr (c - 0x10000) 10) 0x3FF)))
      as (h1 & h2 & h3 & h4 & E1).
    destruct (format_04x_cons (N.lor 0xDC00 (N.land (c - 0x10000) 0x3FF)))
      as (g1 & g2 & g3 & g4 & E2).
    rewrite E1, E2 in *. cbn [app].
    rewrite (scanstring_u_pair _ _ _ _ _ _ _ _ _ _ _ D1 D2 S1 S2).
    by rewrite J.
Qed.

Lemma no_low_escape_quote rest : no_low_escape (0x22 :: rest).
Proof. destruct rest; [done|]. simpl. done. Qed.

Lemma no_low_escape_escape_char c t :
  valid_char c = true -> is_low_surrogate c = false ->
  no_low_escape (escape_char c ++ t).
Proof.
  intros Hv Hl. apply N.ltb_lt in Hv.
  case_escape c; try (cbn; done).
  - cbn [app]. destruct t as [|u s4]; [done|]. cbn [no_low_escape].
    by apply N.eqb_neq in n as ->.
  - pose proof (decode_format_04x c ltac:(done)) as Hd.
    destruct (format_04x_cons c) as (h1 & h2 & h3 & h4 & E). rewrite E in *.
    cbn. intros _. eauto.
  - destruct (surrogate_pair_join c) as (L1 & L2 & S1 & S1' & S2 & J); [done..|].
    cbv zeta in *.
    pose proof (decode_format_04x _ L1) as D1.
    destruct (format_04x_cons (N.lor 0xD800 (N.land (N.shiftr (c - 0x10000) 10) 0x3FF)))
      as (h1 & h2 & h3 & h4 & E1).
    rewrite E1 in *. cbn. intros _. eauto.
Qed.

Lemma no_surrogate_pair_cons c s :
  no_surrogate_pair (c :: s) = true ->
  no_surrogate_pair s = true /\
  (is_high_surrogate c = true ->
   match s with [] => True | c2 :: _ => is_low_surrogate c2 = false end).
Proof.
  destruct s as [|c2 s]; [done|]. cbn [no_surrogate_pair].
  intros [H1 H2]%andb_true_iff. split; [done|]. intros Hc.
  rewrite Hc in H1. by destruct (is_low_surrogate c2).
Qed.

(** A stable string is read back from its escaped form. *)
Lemma scanstring_escaped s rest :
  stable_str s = true ->
  scanstring (flat_map escape_char s ++ 0x22 :: rest) = Ok (s, rest).
Proof.
  unfold stable_str, valid_str. intros [Hv Hp]%andb_true_iff.
  induction s as [|c s IH]; [done|].
  cbn [forallb] in Hv. apply andb_true_iff in Hv as [Hc Hv].
  apply no_surrogate_pair_cons in Hp as [Hp Hnext].
  cbn [flat_map]. rewrite <- app_assoc, scanstring_escape_char; [| done |].
  - by rewrite IH.
  - intros Hh. specialize (Hnext Hh). destruct s as [|c2 s'].
    + apply no_low_escape_quote.
    + cbn [flat_map]. rewrite <- app_assoc.
      cbn [forallb] in Hv. apply andb_true_iff in Hv as [Hc2 _].
      by apply no_low_escape_escape_char.
Qed.

Lemma scanstring_encoded s rest :
  stable_str s = true ->
  scanstring (tail (encode_basestring_ascii s) ++ rest) = Ok (s, rest).
Proof.
  intros H. unfold encode_basestring_ascii. cbn [tail].
  rewrite <- app_assoc. by apply scanstring_escaped.
Qed.

(** ** Induction on values *)

Lemma pyval_ind (P : pyval -> Prop) :
  P PNone ->
  (forall b, P (PBool b)) ->
  (forall s, P (PStr s)) ->
  (forall l, Forall P l -> P (PList l)) ->
  (forall d, Forall (fun kv => P (snd kv)) d -> P (PDict d)) ->
  forall v, P v.
Proof.
  intros HN HB HS HL HD. fix IH 1. intros [| b | s | l | d].
  - exact HN.
  - apply HB.
  - apply HS.
  - apply HL. induction l as [|x l IHl]; constructor; [apply IH | exact IHl].
  - apply HD. induction d as [|[k x] d IHd]; constructor; [apply IH | exact IHd].
Qed.

(** ** Dicts with distinct keys *)

Lemma distinct_keys_NoDup ks : distinct_keys ks = true <-> NoDup ks.
Proof.
  induction ks as [|k ks IH]; simpl.
  - split; [constructor | done].
  - rewrite andb_true_iff, negb_true_iff, IH, NoDup_cons.
    assert (existsb (str_eqb k) ks = false <-> k ∉ ks) as ->; [|done].
    rewrite <- not_true_iff_false, existsb_exists. split.
    + intros H Hin. apply H. exists k. split; [|apply str_eqb_refl].
      by apply list_elem_of_In.
    + intros H (x & Hin & Hx). apply str_eqb_eq in Hx as ->.
      by apply H, list_elem_of_In.
Qed.

Lemma dict_of_pairs_from (acc d : pydict) :
  NoDup (map fst (acc ++ d)) ->
  fold_left (fun d kv => dict_set d (fst kv) (snd kv)) d acc = acc ++ d.
Proof.
  revert acc. induction d as [|[k v] d IH]; intros acc Hnd.
  - by rewrite app_nil_r.
  - cbn [fold_left fst snd]. rewrite dict_set_fresh.
    + rewrite IH; rewrite <- app_assoc; done.
    + rewrite map_app in Hnd. apply NoDup_app in Hnd as (_ & Hd & _).
      intros Hin. apply (Hd k Hin). simpl. left.
Qed.

Lemma dict_of_pairs_distinct (d : pydict) :
  distinct_keys (map fst d) = true -> dict_of_pairs d = d.
Proof.
  intros H. apply distinct_keys_NoDup in H.
  unfold dict_of_pairs. by rewrite dict_of_pairs_from.
Qed.

(** ** [join] *)

Lemma join_cons (sep p : pystr) (ps : list pystr) :
  join sep (p :: ps) = p ++ flat_map (fun q => sep ++ q) ps.
Proof.
  revert p. induction ps as [|q ps IH]; intros p.
  - simpl. by rewrite app_nil_r.
  - change (join sep (p :: q :: ps)) with (p ++ sep ++ join sep (q :: ps)).
    rewrite IH. cbn [flat_map]. by rewrite <- !app_assoc.
Qed.

Lemma flat_map_map {A B C} (f : B -> list C) (g : A -> B) (l : list A) :
  flat_map f (map g l) = flat_map (fun x => f (g x)) l.
Proof. induction l as [|x l IH]; simpl; [done | by rewrite IH]. Qed.

Lemma flat_map_length_ge {A B} (f : A -> list B) (l : list A) :
  (forall x, f x <> []) -> (length l <= length (flat_map f l))%nat.
Proof.
  intros Hf. induction l as [|x l IH]; simpl; [lia|].
  rewrite length_app. specialize (Hf x). destruct (f x); [done | simpl; lia].
Qed.

(** ** Whitespace of the encoder *)

Lemma skip_ws_blank a t : json_blank a -> skip_ws (a ++ t) = skip_ws t.
Proof. induction 1 as [|c a Hc _ IH]; simpl; [done | by rewrite Hc]. Qed.

Lemma skip_ws_solid c t : is_json_ws c = false -> skip_ws (c :: t) = c :: t.
Proof. intros H. simpl. by rewrite H. Qed.

Lemma str_mul_blank a k : json_blank a -> json_blank (str_mul a k).
Proof.
  intros Ha. unfold str_mul. induction k as [|k IH]; simpl; [constructor|].
  by apply Forall_app_2.
Qed.

Lemma space_blank : json_blank (py " ").
Proof. by repeat constructor. Qed.

Section RoundTrip.
(** The indent width, [json.dump(..., indent=n)]. *)
Variable n : nat.

Local Abbreviation enc := (encode n).
Local Abbreviation nl := (newline n).
Local Abbreviation sep := (separator n).
Local Abbreviation item_body := (item n).

Lemma nl_blank level t : skip_ws (nl level ++ t) = skip_ws t.
Proof.
  unfold newline, newline_indent. cbn [app skip_ws is_json_ws].
  change ((0x0A =? 0x20) || (0x0A =? 0x09) || (0x0A =? 0x0A) || (0x0A =? 0x0D))
    with true. cbv iota.
  apply skip_ws_blank, str_mul_blank, str_mul_blank, space_blank.
Qed.

Lemma enc_list level v vs :
  enc level (PList (v :: vs))
  = py "[" ++ nl (S level)
    ++ enc (S level) v ++ flat_map (fun x => sep (S level) ++ enc (S level) x) vs
    ++ nl level ++ py "]".
Proof.
  unfold encode at 1. cbn [complete_text]. fold (encode n). fold (newline n).
  fold (separator n (S level)).
  cbn [map]. by rewrite join_cons, flat_map_map, <- !app_assoc.
Qed.

Lemma item_eq level (kv : pystr * pyval) :
  encode_basestring_ascii (fst kv) ++ py ": " ++ enc level (snd kv)
  = 0x22 :: item_body level kv.
Proof.
  unfold item, encode_basestring_ascii. cbn [app].
  by rewrite <- !app_assoc.
Qed.

Lemma enc_dict level kv kvs :
  enc level (PDict (kv :: kvs))
  = py "{" ++ nl (S level)
    ++ 0x22 :: item_body (S level) kv
    ++ flat_map (fun x => sep (S level) ++ 0x22 :: item_body (S level) x) kvs
    ++ nl level ++ py "}".
Proof.
  unfold encode at 1. cbn [complete_text]. fold (encode n). fold (newline n).
  fold (separator n (S level)).
  cbn [map]. rewrite join_cons, flat_map_map, item_eq.
  rewrite (flat_map_ext _ (fun x => sep (S level) ++ 0x22 :: item_body (S level) x))
    by (intros x; by rewrite item_eq).
  cbn [app]. by rewrite <- !app_assoc.
Qed.

Lemma enc_start level v : exists c t, enc level v = c :: t /\ value_start c.
Proof.
  destruct v as [| [|] | s | [|x l] | [|kv d]];
    eexists _, _; (split; [reflexivity | by repeat split]).
Qed.

Lemma skip_ws_enc level v t : skip_ws (enc level v ++ t) = enc level v ++ t.
Proof.
  destruct (enc_start level v) as (c & u & -> & Hc & _).
  by apply skip_ws_solid.
Qed.

Lemma enc_nonempty level v : enc level v <> [].
Proof. destruct (enc_start level v) as (c & u & -> & _). done. Qed.

(** *** Arrays *)

Lemma array_items_encoded scan level rest vs : forall v values bound,
  Forall (fun x => forall r, scan (enc (S level) x ++ r) = Ok (x, r)) (v :: vs) ->
  (length (v :: vs) <= bound)%nat ->
  array_items scan bound
    (enc (S level) v ++ flat_map (fun x => sep (S level) ++ enc (S level) x) vs
     ++ nl level ++ py "]" ++ rest) values
  = Ok (PList (values ++ v :: vs), rest).
Proof.
  induction vs as [|v2 vs IH]; intros v values bound Hscan Hbound;
    destruct bound as [|bound]; try (simpl in Hbound; lia);
    apply Forall_cons in Hscan as [Hv Hscan]; cbn [array_items].
  - rewrite Hv. cbn [obind fst snd flat_map app].
    rewrite nl_blank. change (py "]") with [0x5D]. reflexivity.
  - rewrite Hv. cbn [obind fst snd flat_map].
    unfold separator at 1. rewrite <- !app_assoc.
    change (py ",") with [0x2C]. cbn [app].
    rewrite skip_ws_solid by done.
    change (0x2C =? 0x5D) with false. change (0x2C =? 0x2C) with true.
    cbv iota. rewrite nl_blank, skip_ws_enc.
    rewrite IH; [|done|simpl in *; lia].
    by rewrite <- app_assoc.
Qed.

(** *** Objects *)

Lemma object_items_encoded scan level rest kvs : forall kv pairs bound,
  Forall (fun x => stable_str (fst x) = true /\
                   forall r, scan (enc (S level) (snd x) ++ r) = Ok (snd x, r))
         (kv :: kvs) ->
  (length (kv :: kvs) <= bound)%nat ->
  object_items scan bound
    (item_body (S level) kv
     ++ flat_map (fun x => sep (S level) ++ 0x22 :: item_body (S level) x) kvs
     ++ nl level ++ py "}" ++ rest) pairs
  = Ok (PDict (dict_of_pairs (pairs ++ kv :: kvs)), rest).
Proof.
  induction kvs as [|kv2 kvs IH]; intros [key v] pairs bound Hscan Hbound;
    destruct bound as [|bound]; try (simpl in Hbound; lia);
    apply Forall_cons in Hscan as [[Hkey Hv] Hscan]; cbn [fst snd] in *;
    cbn [object_items]; unfold item at 1; cbn [fst snd];
    rewrite <- !app_assoc; change ([0x22] ++ ?x) with (0x22 :: x);
    rewrite scanstring_escaped by done; cbn [obind fst snd];
    change (py ": ") with [0x3A; 0x20]; cbn [app];
    rewrite skip_ws_solid by done;
    change (0x3A =? 0x3A) with true; cbv iota;
    change (skip_ws (0x20 :: ?x)) with (skip_ws x);
    rewrite skip_ws_enc, Hv; cbn [obind fst snd flat_map app].
  - rewrite nl_blank. change (py "}") with [0x7D]. reflexivity.
  - unfold separator at 1. rewrite <- !app_assoc.
    change (py ",") with [0x2C]. cbn [app].
    rewrite skip_ws_solid by done.
    change (0x2C =? 0x7D) with false. change (0x2C =? 0x2C) with true.
    cbv iota. rewrite nl_blank, skip_ws_solid by done.
    change (0x22 =? 0x22) with true. cbv iota.
    rewrite IH; [|done|simpl in *; lia].
    by rewrite <- app_assoc.
Qed.

(** *** Values *)

Lemma depth_list_le x (l : list pyval) :
  x ∈ l -> (depth x <= fold_right (fun y k => Nat.max (depth y) k) O l)%nat.
Proof.
  induction 1 as [x l | x y l _ IH]; simpl; lia.
Qed.

Lemma depth_dict_le (kv : pystr * pyval) (d : list (pystr * pyval)) :
  kv ∈ d ->
  (depth (snd kv) <= fold_right (fun y k => Nat.max (depth (snd y)) k) O d)%nat.
Proof.
  induction 1 as [x l | x y l _ IH]; simpl; lia.
Qed.

Lemma scan_once_encoded v :
  stable_val v = true ->
  forall level fuel rest,
    (depth v <= fuel)%nat ->
    scan_once fuel (enc level v ++ rest) = Ok (v, rest).
Proof.
  induction v as [| b | s | l IH | d IH] using pyval_ind;
    intros Hst level [|fuel] rest Hfuel; try (simpl in Hfuel; lia).
  - reflexivity.
  - by destruct b.
  - unfold encode. cbn [complete_text]. unfold encode_basestring_ascii.
    cbn [app scan_once]. change (0x22 =? 0x22) with true. cbv iota.
    rewrite <- app_assoc. cbn [app]. by rewrite scanstring_escaped.
  - destruct l as [|x l]; [reflexivity|]. rewrite enc_list.
    change (py "[") with [0x5B]. cbn [app scan_once].
    change (0x5B =? 0x22) with false. change (0x5B =? 0x7B) with false.
    change (0x5B =? 0x5B) with true. cbv iota.
    unfold JSONArray. rewrite <- !app_assoc, nl_blank, skip_ws_enc.
    destruct (enc_start (S level) x) as (c & t & E & _ & Hc & _).
    rewrite E at 1. cbn [app]. rewrite Hc.
    apply array_items_encoded.
    + cbn [stable_val] in Hst. rewrite forallb_forall in Hst.
      rewrite Forall_forall in IH. apply Forall_forall. intros y Hy r.
      apply IH; [done | by apply Hst, list_elem_of_In |].
      cbn [depth] in Hfuel. pose proof (depth_list_le y _ Hy). lia.
    + pose proof (flat_map_length_ge
                    (fun y => sep (S level) ++ enc (S level) y) l
                    ltac:(intros y; unfold separator; done)).
      pose proof (enc_nonempty (S level) x).
      rewrite !length_app. cbn [length].
      destruct (enc (S level) x); [done|]. cbn [length]. lia.
  - destruct d as [|kv d]; [reflexivity|]. rewrite enc_dict.
    change (py "{") with [0x7B]. cbn [app scan_once].
    change (0x7B =? 0x22) with false. change (0x7B =? 0x7B) with true.
    cbv iota.
    unfold JSONObject. rewrite <- !app_assoc, nl_blank. cbn [app].
    rewrite <- !app_assoc. rewrite skip_ws_solid by done.
    change (0x22 =? 0x7D) with false. change (0x22 =? 0x22) with true.
    cbv iota.
    cbn [stable_val] in Hst. apply andb_true_iff in Hst as [Hkeys Hst].
    rewrite object_items_encoded.
    + cbn [app]. by rewrite dict_of_pairs_distinct.
    + rewrite forallb_forall in Hst.
      rewrite Forall_forall in IH. apply Forall_forall. intros y Hy.
      specialize (Hst y ltac:(by apply list_elem_of_In)).
      apply andb_true_iff in Hst as [Hk Hv]. split; [done|]. intros r.
      apply IH; [done | done |].
      cbn [depth] in Hfuel. pose proof (depth_dict_le y _ Hy). lia.
    + pose proof (flat_map_length_ge
                    (fun y => sep (S level) ++ 0x22 :: item_body (S level) y) d
                    ltac:(intros y; unfold separator; done)).
      rewrite !length_app. cbn [length]. rewrite !length_app. cbn [length]. lia.
Qed.

Lemma depth_flat_map_le {A} (f : A -> pystr) (g : A -> pyval) (l : list A) :
  (forall x, x ∈ l -> (depth (g x) <= length (f x))%nat) ->
  (fold_right (fun y k => Nat.max (depth (g y)) k) O l
   <= length (flat_map f l))%nat.
Proof.
  induction l as [|x l IH]; intros H; simpl; [lia|].
  rewrite length_app.
  pose proof (H x ltac:(left)).
  pose proof (IH ltac:(intros y Hy; apply H; by right)). lia.
Qed.

Lemma depth_le_length v : forall level, (depth v <= length (enc level v))%nat.
Proof.
  induction v as [| b | s | l IH | d IH] using pyval_ind; intros level.
  - simpl. lia.
  - destruct b; simpl; lia.
  - simpl. lia.
  - destruct l as [|x l]; [simpl; lia|]. rewrite enc_list.
    change (py "[") with [0x5B].
    apply Forall_cons in IH as [IHx IH]. rewrite Forall_forall in IH.
    cbn [depth fold_right].
    pose proof (depth_flat_map_le
                  (fun y => sep (S level) ++ enc (S level) y) (fun y => y) l) as Hl.
    rewrite !length_app. cbn [length]. specialize (IHx (S level)).
    assert (fold_right (fun y k => Nat.max (depth y) k) 0%nat l
            <= length (flat_map (fun y => sep (S level) ++ enc (S level) y) l))%nat.
    { apply Hl. intros y Hy. rewrite length_app. specialize (IH y Hy (S level)). lia. }
    lia.
  - destruct d as [|kv d]; [simpl; lia|]. rewrite enc_dict.
    change (py "{") with [0x7B].
    apply Forall_cons in IH as [IHx IH]. rewrite Forall_forall in IH.
    cbn [depth fold_right].
    pose proof (depth_flat_map_le
                  (fun y => sep (S level) ++ 0x22 :: item_body (S level) y)
                  snd d) as Hl.
    rewrite !length_app. cbn [length]. rewrite !length_app.
    specialize (IHx (S level)).
    assert (fold_right (fun y k => Nat.max (depth (snd y)) k) 0%nat d
            <= length (flat_map
                 (fun y => sep (S level) ++ 0x22%N :: item_body (S level) y) d))%nat.
    { apply Hl. intros y Hy. rewrite length_app. cbn [length].
      unfold item. rewrite !length_app.
      specialize (IH y Hy (S level)). lia. }
    unfold item at 1. rewrite !length_app. lia.
Qed.

(** A stable value is read back from its complete text. *)
Lemma json_loads_dumps v :
  stable_val v = true -> json_loads (json_text n v) = Ok v.
Proof.
  intros Hst. unfold json_loads, json_text. fold (encode n).
  rewrite <- (app_nil_r (enc 0 v)) at 2. rewrite skip_ws_enc.
  rewrite scan_once_encoded; [done | done |].
  pose proof (depth_le_length v 0). lia.
Qed.
End RoundTrip.

Lemma stable_record_val r : stable_record r = true -> stable_val (record_obj r) = true.
Proof.
  unfold stable_record. rewrite !andb_true_iff.
  intros ((((Hkeys & Hinfo) & Hed) & Hwe) & Hsk).
  unfold record_obj. cbn [stable_val map fst snd forallb].
  assert (forall l, forallb stable_val (map PStr l) = forallb stable_str l) as Hl.
  { intros l. induction l as [|x l IH]; [done|].
    cbn [map forallb stable_val]. by rewrite IH. }
  rewrite !Hl, Hed, Hwe, Hsk.
  rewrite map_map. cbn [fst].
  change (map (fun x : pystr * pystr => fst x) (personal_info r))
    with (map fst (personal_info r)).
  rewrite Hkeys.
  assert (forallb (fun kv => stable_str (fst kv) && stable_val (snd kv))
            (map (fun kv => (fst kv, PStr (snd kv))) (personal_info r))
          = forallb (fun kv => stable_str (fst kv) && stable_str (snd kv))
              (personal_info r)) as ->.
  { clear. induction (personal_info r) as [|x l IH]; [done|].
    cbn [map forallb fst snd stable_val]. by rewrite IH. }
  rewrite Hinfo. reflexivity.
Qed.

(** ** A dump that comes to its end *)

Lemma chain_complete sep (results : list (pystr * bool)) :
  snd (chain sep results) = true ->
  Forall (fun r => snd r = true) results /\
  fst (chain sep results) = join sep (map fst results).
Proof.
  induction results as [|r rest IH]; [done|].
  destruct rest as [|r' rest].
  - simpl. intros H. split; [by constructor | done].
  - change (chain sep (r :: r' :: rest))
      with (if snd r
            then (fst r ++ sep ++ fst (chain sep (r' :: rest)),
                  snd (chain sep (r' :: rest)))
            else r).
    destruct (snd r) eqn:E; [|by rewrite E].
    cbn [fst snd]. intros H. destruct (IH H) as [Hall Heq].
    split; [by constructor|]. by rewrite Heq.
Qed.

(** A dump that came to its end has written the complete text. *)
Lemma iterencode_complete indent isep ksep o :
  forall room level,
    snd (iterencode indent isep ksep room level o) = true ->
    fst (iterencode indent isep ksep room level o)
    = complete_text indent isep ksep level o.
Proof.
  induction o as [| b | s | l IH | d IH] using pyval_ind; intros room level.
  - done.
  - by destruct b.
  - done.
  - destruct l as [|x l]; [by destruct room|].
    destruct room as [|[|room]]; [done | done |].
    cbn [iterencode complete_text].
    set (results := map _ (x :: l)). cbn [fst snd].
    intros H. destruct (chain_complete _ _ H) as [Hall Heq].
    rewrite H, Heq. do 2 f_equal. f_equal. unfold results. rewrite map_map.
    f_equal. apply map_ext_Forall.
    unfold results in Hall. rewrite Forall_map in Hall.
    rewrite Forall_forall in IH, Hall. apply Forall_forall.
    intros y Hy. apply IH; [done|]. by apply Hall.
  - destruct d as [|kv d]; [by destruct room|].
    destruct room as [|[|room]]; [done | done |].
    cbn [iterencode complete_text].
    set (results := map _ (kv :: d)). cbn [fst snd].
    intros H. destruct (chain_complete _ _ H) as [Hall Heq].
    rewrite H, Heq. do 2 f_equal. f_equal. unfold results. rewrite map_map.
    f_equal. apply map_ext_Forall.
    unfold results in Hall. rewrite Forall_map in Hall.
    rewrite Forall_forall in IH, Hall. apply Forall_forall.
    intros y Hy. cbn [fst snd]. do 2 f_equal.
    apply IH; [done|]. by apply (Hall y).
Qed.

(** A save that returns has opened the file and dumped the complete text
    into it; it logs nothing. *)
Lemma save_to_json_returns `{h : host} data output_file w w' :
  save_to_json data output_file w = (Ok tt, w') ->
  dict_get (fs w') output_file = Some (RegularFile (json_text 4 data)) /\
  events w' = events w.
Proof.
  unfold save_to_json, try_except, bind, open_w, json_dump.
  set (written := iterencode _ _ _ _ _ _).
  assert (snd written = true -> fst written = json_text 4 data) as Hfull
    by apply iterencode_complete.
  destruct (dict_get (fs w) output_file) as [[|old]|];
    [done | | ]; (destruct (may_write output_file); [|done]);
    (destruct (snd written); [|done]);
    intros [= <-]; cbn [fs events]; by rewrite dict_get_set_eq, Hfull.
Qed.




(** * Properties of the program *)

Lemma personal_field_record r key :
  personal_field (record_obj r) key =
  match dict_get (personal_info r) key with
  | Some v => Ok (PStr v)
  | None => Raise (KeyError key)
  end.
Proof.
  unfold personal_field, record_obj. simpl.
  rewrite (dict_get_map PStr). by destruct (dict_get (personal_info r) key).
Qed.

Lemma step_record_name r section line :
  contains (py "Name:") line = true ->
  step_record (r, section) line
  = (Record_ (dict_set (personal_info r) (py "name")
                (strip (replace (py "Name:") [] line)))
             (education r) (work_experience r) (skills r), section).
Proof.
  intros H. unfold step_record. cbn [fst snd].
  rewrite (contains_strip _ _ solid_Name), H.
  by rewrite <- (replace_strip _ _ solid_Name).
Qed.

Lemma step_record_email r section line :
  contains (py "Name:") line = false ->
  contains (py "Email:") line = true ->
  step_record (r, section) line
  = (Record_ (dict_set (personal_info r) (py "email")
                (strip (replace (py "Email:") [] line)))
             (education r) (work_experience r) (skills r), section).
Proof.
  intros H1 H2. unfold step_record. cbn [fst snd].
  rewrite (contains_strip _ _ solid_Name), H1.
  rewrite (contains_strip _ _ solid_Email), H2.
  by rewrite <- (replace_strip _ _ solid_Email).
Qed.

(** The run of the classifier, cut at one line [x] of the text: the line
    loop on the lines before [x] and on [x] itself, and the whole classifier
    as the loop on the remaining lines from the state [x] leaves. *)
Lemma classify_text_split text (l1 : list pystr) x l2 w :
  falsy (Some text) = false ->
  split 0x0A text = l1 ++ x :: l2 ->
  let st := run_record l1 (empty_record, None) in
  let st' := step_record st x in
  let w' := World (fs w) (events w ++ map ScanLine (l1 ++ [x])) in
  fst (for_lines l1 (resume_data_init, None) w) = Ok (record_obj (fst st), snd st) /\
  for_lines (l1 ++ [x]) (resume_data_init, None) w
  = (Ok (record_obj (fst st'), snd st'), w') /\
  classify_text (Some text) w
  = (s <~ for_lines l2 (record_obj (fst st'), snd st') ;; ret (fst s)) w'.
Proof.
  intros Hf Hsplit st st' w'. rewrite resume_data_init_record.
  rewrite !for_lines_record. split; [done|]. split.
  - rewrite run_record_app. done.
  - rewrite classify_text_lines by done. unfold bind.
    rewrite for_lines_record. unfold ret, w'. cbn [fs events fst].
    rewrite Hsplit. change (l1 ++ x :: l2) with (l1 ++ [x] ++ l2).
    rewrite app_assoc, run_record_app, map_app, app_assoc.
    rewrite (run_record_app l1 [x]). cbn [run_record fold_left].
    fold st. fold st'. by destruct st'.
Qed.

Lemma split_label_not_falsy text (l1 : list pystr) x l2 p :
  split 0x0A text = l1 ++ x :: l2 ->
  contains p x = true -> p <> [] -> falsy (Some text) = false.
Proof.
  intros Hsplit Hp Hne. destruct text; [|done].
  simpl in Hsplit. destruct l1 as [|y l1]; simpl in Hsplit.
  - injection Hsplit as <- _. by destruct p.
  - injection Hsplit as _ H. by destruct l1.
Qed.

(** C1. In a run of the classifier on a text, a line that contains "Name:"
    sets [personal_info.name] to that line with "Name:" removed, trimmed: the
    field has this value when the line loop has processed the lines up to
    and including this one, and the classifier goes on from there with the
    remaining lines.  A line that does not contain "Name:" but contains
    "Email:" sets [personal_info.email] likewise.  The line is the line of
    the text as it stands, before the loop trims it. *)
Theorem name_email_assignment (text : pystr) (l1 : list pystr) (x : pystr)
    (l2 : list pystr) (w : world) :
  split 0x0A text = l1 ++ x :: l2 ->
  (contains (py "Name:") x = true ->
   exists after w',
     for_lines (l1 ++ [x]) (resume_data_init, None) w = (Ok after, w') /\
     personal_field (fst after) (py "name")
     = Ok (PStr (strip (replace (py "Name:") [] x))) /\
     classify_text (Some text) w
     = (st <~ for_lines l2 after ;; ret (fst st)) w') /\
  (contains (py "Name:") x = false ->
   contains (py "Email:") x = true ->
   exists after w',
     for_lines (l1 ++ [x]) (resume_data_init, None) w = (Ok after, w') /\
     personal_field (fst after) (py "email")
     = Ok (PStr (strip (replace (py "Email:") [] x))) /\
     classify_text (Some text) w
     = (st <~ for_lines l2 after ;; ret (fst st)) w').
Proof.
  intros Hsplit. split.
  - intros Hx.
    destruct (classify_text_split text l1 x l2 w) as (_ & Hrun & Hall);
      [by eapply split_label_not_falsy | done |].
    eexists _, _. split; [exact Hrun|]. split; [|exact Hall].
    cbn [fst]. destruct (run_record l1 (empty_record, None)) as [r s].
    rewrite step_record_name by done.
    rewrite personal_field_record. cbn [fst personal_info].
    by rewrite dict_get_set_eq.
  - intros Hn Hx.
    destruct (classify_text_split text l1 x l2 w) as (_ & Hrun & Hall);
      [by eapply split_label_not_falsy | done |].
    eexists _, _. split; [exact Hrun|]. split; [|exact Hall].
    cbn [fst]. destruct (run_record l1 (empty_record, None)) as [r s].
    rewrite step_record_email by done.
    rewrite personal_field_record. cbn [fst personal_info].
    by rewrite dict_get_set_eq.
Qed.

Lemma name_email_assignment_witness :
  (exists after w',
     for_lines ([py "Resume"] ++ [py "  Name: Jane Doe "]) (resume_data_init, None)
       (World [] [])
     = (Ok after, w') /\
     personal_field (fst after) (py "name") = Ok (PStr (py "Jane Doe")) /\
     classify_text (Some name_and_email) (World [] [])
     = (st <~ for_lines [py "Email: jane@x.com"; py "Skills"] after ;;
        ret (fst st)) w') /\
  (exists after w',
     for_lines ([py "Resume"; py "  Name: Jane Doe "] ++ [py "Email: jane@x.com"])
       (resume_data_init, None) (World [] [])
     = (Ok after, w') /\
     personal_field (fst after) (py "email") = Ok (PStr (py "jane@x.com")) /\
     classify_text (Some name_and_email) (World [] [])
     = (st <~ for_lines [py "Skills"] after ;; ret (fst st)) w').
Proof.
  split.
  - apply (proj1 (name_email_assignment name_and_email [py "Resume"]
                    (py "  Name: Jane Doe ") [py "Email: jane@x.com"; py "Skills"]
                    (World [] []) eq_refl)).
    reflexivity.
  - apply (proj2 (name_email_assignment name_and_email
                    [py "Resume"; py "  Name: Jane Doe "] (py "Email: jane@x.com")
                    [py "Skills"] (World [] []) eq_refl));
      reflexivity.
Defined.

(** The run of the witness, evaluated: both fields are in the result. *)
Example name_and_email_run :
  classify_text (Some name_and_email) (World [] [])
  = (Ok (record_obj (Record_ [(py "name", py "Jane Doe");
                              (py "email", py "jane@x.com")] [] [] [])),
     World [] (map ScanLine [py "Resume"; py "  Name: Jane Doe ";
                             py "Email: jane@x.com"; py "Skills"])).
Proof. reflexivity. Qed.

Lemma contains_nil p : p <> [] -> contains p [] = false.
Proof. by destruct p. Qed.

Lemma first_match_nil : first_match [] = None.
Proof. reflexivity. Qed.

Lemma map_inj {A B : Type} (f : A -> B) (l1 l2 : list A) :
  (forall a b, f a = f b -> a = b) -> map f l1 = map f l2 -> l1 = l2.
Proof.
  intros Hf. revert l2. induction l1 as [|a l1 IH]; intros [|b l2] H; try done.
  injection H as Hab H. f_equal; [by apply Hf | by apply IH].
Qed.

(** A record is determined by its Python object. *)
Lemma record_obj_inj r1 r2 : record_obj r1 = record_obj r2 -> r1 = r2.
Proof.
  destruct r1 as [i1 e1 w1 s1], r2 as [i2 e2 w2 s2]. unfold record_obj.
  cbn [personal_info education work_experience skills].
  intros [= Hi He Hw Hs].
  apply map_inj in Hi; [|intros [k1 v1] [k2 v2]; cbn; congruence].
  apply map_inj in He; [|congruence].
  apply map_inj in Hw; [|congruence].
  apply map_inj in Hs; [|congruence].
  by subst.
Qed.

(** C8. In a run of the classifier on a text, a line that is empty after
    trimming matches none of the five labels and, when the line loop reaches
    it with a section active, is appended to the list of that section as the
    empty string (without a section it is dropped); the section stays, and
    the classifier goes on from there with the remaining lines.  [r] and
    [section] are the record and the section the loop has reached on the
    lines before this one. *)
Theorem blank_line_appended (text : pystr) (l1 : list pystr) (x : pystr)
    (l2 : list pystr) (w : world) (r : ResumeRecord) (section : option pystr) :
  text <> [] ->
  split 0x0A text = l1 ++ x :: l2 ->
  strip x = [] ->
  fst (for_lines l1 (resume_data_init, None) w) = Ok (record_obj r, section) ->
  first_match (strip x) = None /\
  exists after w',
    for_lines (l1 ++ [x]) (resume_data_init, None) w = (Ok (after, section), w') /\
    classify_text (Some text) w
    = (st <~ for_lines l2 (after, section) ;; ret (fst st)) w' /\
    (section = Some (py "education") ->
     after = record_obj (Record_ (personal_info r) (education r ++ [[]])
                                 (work_experience r) (skills r))) /\
    (section = Some (py "work_experience") ->
     after = record_obj (Record_ (personal_info r) (education r)
                                 (work_experience r ++ [[]]) (skills r))) /\
    (section = Some (py "skills") ->
     after = record_obj (Record_ (personal_info r) (education r)
                                 (work_experience r) (skills r ++ [[]]))) /\
    (section = None -> after = record_obj r).
Proof.
  intros Hne Hsplit Hx Hbefore.
  destruct (classify_text_split text l1 x l2 w) as (Hl1 & Hrun & Hall);
    [destruct text; [congruence | done] | done |].
  rewrite Hl1 in Hbefore.
  assert (record_obj (fst (run_record l1 (empty_record, None))) = record_obj r)
    as Hr by congruence.
  assert (snd (run_record l1 (empty_record, None)) = section) as Hs by congruence.
  apply record_obj_inj in Hr. clear Hbefore.
  destruct (run_record l1 (empty_record, None)) as [r0 s0].
  cbn [fst snd] in Hr, Hs. subst r0 s0.
  assert (snd (step_record (r, section) x) = section) as Hsec.
  { unfold step_record. cbn [fst snd]. rewrite Hx. simpl. by repeat case_match. }
  rewrite Hsec in Hrun, Hall.
  rewrite Hx. split; [reflexivity|].
  exists (record_obj (fst (step_record (r, section) x))),
    (World (fs w) (events w ++ map ScanLine (l1 ++ [x]))).
  split; [exact Hrun|]. split; [exact Hall|].
  unfold step_record. cbn [fst snd]. rewrite Hx.
  simpl. repeat split; by intros ->.
Qed.

Lemma blank_line_appended_witness :
  exists after w',
    for_lines ([py "Education"; py "BS"] ++ [[0x20; 0x09]]) (resume_data_init, None)
      (World [] [])
    = (Ok (after, Some (py "education")), w') /\
    classify_text (Some blank_between) (World [] [])
    = (st <~ for_lines [py "MS"] (after, Some (py "education")) ;; ret (fst st)) w' /\
    after = record_obj (Record_ [] [py "BS"; []] [] []).
Proof.
  destruct (blank_line_appended blank_between [py "Education"; py "BS"] [0x20; 0x09]
              [py "MS"] (World [] []) (Record_ [] [py "BS"] [] [])
              (Some (py "education")))
    as (_ & after & w' & Hrun & Hall & Hed & _);
    [discriminate | reflexivity | reflexivity | reflexivity |].
  exists after, w'. split; [exact Hrun|]. split; [exact Hall|].
  exact (Hed eq_refl).
Defined.

(** The run of the witness, evaluated: the empty string is the second entry
    of the education list. *)
Example blank_between_run :
  classify_text (Some blank_between) (World [] [])
  = (Ok (record_obj (Record_ [] [py "BS"; []; py "MS"] [] [])),
     World [] (map ScanLine [py "Education"; py "BS"; [0x20; 0x09]; py "MS"])).
Proof. reflexivity. Qed.

(** C10. A line handled by the "Name:" or the "Email:" rule changes nothing
    but [personal_info]: the current section and the three lists stay as they
    were, and within [personal_info] only the keys [name] and [email] can
    change. *)
Theorem personal_line_frame (r : ResumeRecord) (section : option pystr)
    (line : pystr) :
  contains (py "Name:") line = true \/
  (contains (py "Name:") line = false /\ contains (py "Email:") line = true) ->
  exists info',
    loop_body (record_obj r, section) line
    = Ok (record_obj (Record_ info' (education r) (work_experience r) (skills r)),
          section) /\
    forall key, key <> py "name" -> key <> py "email" ->
      dict_get info' key = dict_get (personal_info r) key.
Proof.
  intros [H | [H1 H2]]; eexists; rewrite loop_body_record.
  - rewrite step_record_name by done. split; [reflexivity|].
    intros key Hn _. by rewrite dict_get_set_ne.
  - rewrite step_record_email by done. split; [reflexivity|].
    intros key _ He. by rewrite dict_get_set_ne.
Qed.

Lemma personal_line_frame_witness :
  exists info',
    loop_body (record_obj (Record_ [] [py "BS"] [] [py "Rocq"]), Some (py "skills"))
              (py "Name: Jane")
    = Ok (record_obj (Record_ info' [py "BS"] [] [py "Rocq"]), Some (py "skills")) /\
    forall key, key <> py "name" -> key <> py "email" ->
      dict_get info' key = dict_get [] key.
Proof.
  apply (personal_line_frame (Record_ [] [py "BS"] [] [py "Rocq"])
           (Some (py "skills")) (py "Name: Jane")).
  left. reflexivity.
Defined.

(** The loop body is the first-match classifier. *)
Lemma loop_body_first_match st line : loop_body st line = first_match_step st line.
Proof.
  unfold loop_body, first_match_step, first_match, priority.
  generalize (strip line). intros l. cbn [List.find label].
  destruct (contains (py "Name:") l); [done|].
  destruct (contains (py "Email:") l); [done|].
  destruct (contains (py "Education") l); [done|].
  destruct (contains (py "Experience") l); [done|].
  destruct (contains (py "Skills") l); [done|].
  unfold store_line. cbn [List.find].
  destruct (section_is (snd st) (py "education")); [done|].
  destruct (section_is (snd st) (py "work_experience")); [done|].
  destruct (section_is (snd st) (py "skills")); [done|].
  by destruct st.
Qed.




(** C3. When the extracted text is empty, or [None], the classifier returns
    the initial all-empty record at once: the only trace it leaves is the
    warning, and no line is scanned.  For [parse_pdf_resume] this is the case
    when no page of the opened file yields text. *)
Theorem empty_text_early_return (pdfplumber : pystr -> outcome (list (option pystr)))
    (w : world) :
  (forall text, text = None \/ text = Some [] ->
     classify_text text w
     = (Ok resume_data_init, World (fs w) (events w ++ [no_text_warning]))) /\
  (forall file_path data pages,
     dict_get (fs w) file_path = Some (RegularFile data) ->
     pdfplumber data = Ok pages ->
     Forall (fun page => page = None \/ page = Some []) pages ->
     parse_pdf_resume pdfplumber file_path w
     = (Ok resume_data_init,
        World (fs w) (events w ++ [OpenPdf file_path; no_text_warning]))).
Proof.
  split.
  - intros text H. apply classify_text_falsy. by apply falsy_spec.
  - intros file_path data pages Hf Hp Hpages.
    assert (page_texts pages = []) as Hnil.
    { clear Hp. induction Hpages as [|page pages Hpage _ IH]; [done|].
      unfold page_texts in *. cbn [flat_map]. rewrite IH.
      apply falsy_spec in Hpage. by rewrite Hpage. }
    unfold parse_pdf_resume, extract_text, open_pdf.
    unfold bind, try_except, emit, ret. cbn [fs events].
    rewrite Hf, Hp, Hnil. cbn [join].
    rewrite classify_text_falsy by done. cbn [fs events].
    by rewrite <- app_assoc.
Qed.

Lemma empty_text_early_return_witness :
  classify_text (Some []) (World [] [])
  = (Ok resume_data_init, World [] [no_text_warning]) /\
  parse_pdf_resume (fun _ => Ok [None; Some []]) (py "cv.pdf")
    (World [(py "cv.pdf", RegularFile (py "%PDF"))] [])
  = (Ok resume_data_init,
     World [(py "cv.pdf", RegularFile (py "%PDF"))]
           [OpenPdf (py "cv.pdf"); no_text_warning]).
Proof.
  split.
  - apply (proj1 (empty_text_early_return (fun _ => Ok []) (World [] []))).
    right. reflexivity.
  - apply (proj2 (empty_text_early_return (fun _ => Ok [None; Some []])
                    (World [(py "cv.pdf", RegularFile (py "%PDF"))] []))
             (py "cv.pdf") (py "%PDF") [None; Some []]).
    + reflexivity.
    + reflexivity.
    + constructor; [left; reflexivity|].
      constructor; [right; reflexivity|]. constructor.
Defined.

(** The early return is not an empty loop: the loop on the lines of the
    empty text would run once, on the empty line. *)
Example empty_text_has_one_line :
  for_lines (split 0x0A []) (resume_data_init, None) (World [] [])
  = (Ok (resume_data_init, None), World [] [ScanLine []]).
Proof. reflexivity. Qed.

(** C5. When the input path does not exist, [main] logs an error and
    returns normally: no exception, no attempt to open the PDF (no [OpenPdf]
    event), nothing printed, and the file system is left as it was. *)
Theorem missing_input_controlled_exit `{h : host}
    (pdfplumber : pystr -> outcome (list (option pystr)))
    (file_path output_file : pystr) (w : world) :
  dict_get (fs w) file_path = None ->
  main pdfplumber file_path output_file w
  = (Ok tt,
     World (fs w)
       (events w ++ [Log ERROR [Lit (py "The provided file path does not exist.")]])).
Proof.
  intros H. unfold main, bind, isfile. rewrite H. reflexivity.
Qed.

Lemma missing_input_controlled_exit_witness :
  main (fun _ => Raise (PdfError [])) (py "missing.pdf") (py "out.json")
    (World [(py "other.pdf", RegularFile [])] [])
  = (Ok tt,
     World [(py "other.pdf", RegularFile [])]
       [Log ERROR [Lit (py "The provided file path does not exist.")]]).
Proof.
  apply (missing_input_controlled_exit (fun _ => Raise (PdfError []))
           (py "missing.pdf") (py "out.json")
           (World [(py "other.pdf", RegularFile [])] [])).
  reflexivity.
Defined.

(** ** Growth of the section lists *)

Lemma step_record_grows r section line :
  let r' := fst (step_record (r, section) line) in
  exists ke kw ks,
    education r' = education r ++ ke /\
    work_experience r' = work_experience r ++ kw /\
    skills r' = skills r ++ ks /\
    ke `sublist_of` [strip line] /\
    kw `sublist_of` [strip line] /\
    ks `sublist_of` [strip line].
Proof.
  assert ([] `sublist_of` [strip line]) as Hnil by apply sublist_nil_l.
  assert ([strip line] `sublist_of` [strip line]) as Hone by done.
  unfold step_record. cbn [fst snd].
  repeat match goal with
         | |- context [if ?b then _ else _] => destruct b
         end; cbn [fst education work_experience skills].
  all: first
    [ exists [], [], []; rewrite !app_nil_r; by repeat split
    | exists [strip line], [], []; rewrite !app_nil_r; by repeat split
    | exists [], [strip line], []; rewrite !app_nil_r; by repeat split
    | exists [], [], [strip line]; rewrite !app_nil_r; by repeat split ].
Qed.

Lemma run_record_grows lines r section :
  let r' := fst (run_record lines (r, section)) in
  exists ke kw ks,
    education r' = education r ++ ke /\
    work_experience r' = work_experience r ++ kw /\
    skills r' = skills r ++ ks /\
    ke `sublist_of` map strip lines /\
    kw `sublist_of` map strip lines /\
    ks `sublist_of` map strip lines.
Proof.
  revert r section. induction lines as [|line lines IH]; intros r section.
  - exists [], [], []. simpl. rewrite !app_nil_r. by repeat split.
  - cbn [run_record fold_left map].
    destruct (step_record_grows r section line)
      as (ke & kw & ks & He & Hw & Hs & Se & Sw & Ss).
    destruct (step_record (r, section) line) as [r1 s1]. cbn [fst] in *.
    destruct (IH r1 s1) as (ke' & kw' & ks' & He' & Hw' & Hs' & Se' & Sw' & Ss').
    exists (ke ++ ke'), (kw ++ kw'), (ks ++ ks').
    fold (run_record lines (r1, s1)).
    rewrite He', Hw', Hs', He, Hw, Hs, <- !app_assoc.
    repeat split; try done;
      change (strip line :: map strip lines) with ([strip line] ++ map strip lines);
      by apply sublist_app.
Qed.

(** C4. The record the classifier returns always has the four top-level
    fields, and during the scan the three lists only grow at the end: the
    lists after any first part of the lines are prefixes of the lists after
    all of them, and what is added is a selection of the trimmed lines, in
    document order. *)
Theorem four_fields_lists_grow (text : option pystr) (w : world)
    (lines1 lines2 : list pystr) (r0 : ResumeRecord) (section0 : option pystr) :
  (exists info ed we sk,
     fst (classify_text text w)
     = Ok (PDict [(py "personal_info", PDict info);
                  (py "education", PList ed);
                  (py "work_experience", PList we);
                  (py "skills", PList sk)])) /\
  exists r1 section1 r2 section2,
    fst (for_lines lines1 (record_obj r0, section0) w)
    = Ok (record_obj r1, section1) /\
    fst (for_lines (lines1 ++ lines2) (record_obj r0, section0) w)
    = Ok (record_obj r2, section2) /\
    education r1 `prefix_of` education r2 /\
    work_experience r1 `prefix_of` work_experience r2 /\
    skills r1 `prefix_of` skills r2 /\
    exists ke kw ks,
      education r2 = education r0 ++ ke /\
      work_experience r2 = work_experience r0 ++ kw /\
      skills r2 = skills r0 ++ ks /\
      ke `sublist_of` map strip (lines1 ++ lines2) /\
      kw `sublist_of` map strip (lines1 ++ lines2) /\
      ks `sublist_of` map strip (lines1 ++ lines2).
Proof.
  split.
  - rewrite classify_text_result. unfold record_obj. by eexists _, _, _, _.
  - rewrite !for_lines_record. cbn [fst].
    eexists _, _, _, _. split; [reflexivity|]. split; [reflexivity|].
    rewrite run_record_app.
    destruct (run_record lines1 (r0, section0)) as [r1 s1] eqn:E1. cbn [fst].
    destruct (run_record_grows lines2 r1 s1)
      as (ke & kw & ks & He & Hw & Hs & _).
    split; [by eexists|]. split; [by eexists|]. split; [by eexists|].
    rewrite <- E1, <- run_record_app. apply run_record_grows.
Qed.

(** ** Determinism *)

Lemma parse_pdf_resume_fs pdfplumber file_path w :
  fs (snd (parse_pdf_resume pdfplumber file_path w)) = fs w.
Proof.
  unfold parse_pdf_resume, extract_text, open_pdf, bind, try_except, emit, ret, raise.
  cbn [fs events].
  destruct (dict_get (fs w) file_path) as [[|data]|]; try done.
  destruct (pdfplumber data) as [pages|e]; [|done].
  by rewrite classify_text_fs.
Qed.

Lemma parse_pdf_resume_result pdfplumber file_path w w' :
  fs w = fs w' ->
  fst (parse_pdf_resume pdfplumber file_path w)
  = fst (parse_pdf_resume pdfplumber file_path w').
Proof.
  intros Hfs.
  unfold parse_pdf_resume, extract_text, open_pdf, bind, try_except, emit, ret, raise.
  cbn [fs events]. rewrite Hfs.
  destruct (dict_get (fs w') file_path) as [[|data]|]; try done.
  destruct (pdfplumber data) as [pages|e]; [|done].
  by rewrite !classify_text_result.
Qed.

(** C6. The classifier carries no state between runs: its result does not
    depend on the world it runs in, so a second run on the same text, in the
    world the first run left, returns an identical record; the same holds for
    two runs of [parse_pdf_resume] on the same file. *)
Theorem classifier_deterministic
    (pdfplumber : pystr -> outcome (list (option pystr)))
    (text : option pystr) (file_path : pystr) (w w' : world) :
  fst (classify_text text w) = fst (classify_text text w') /\
  fst (classify_text text (snd (classify_text text w)))
  = fst (classify_text text w) /\
  fst (parse_pdf_resume pdfplumber file_path
         (snd (parse_pdf_resume pdfplumber file_path w)))
  = fst (parse_pdf_resume pdfplumber file_path w).
Proof.
  split; [by rewrite !classify_text_result|].
  split; [by rewrite !classify_text_result|].
  apply parse_pdf_resume_result, parse_pdf_resume_fs.
Qed.

(** ** The last personal-information line wins *)

Lemma step_record_keeps_name st line :
  contains (py "Name:") line = false ->
  name_of (step_record st line) = name_of st.
Proof.
  intros H. unfold step_record, name_of.
  rewrite (contains_strip _ _ solid_Name), H.
  repeat match goal with
         | |- context [if ?b then _ else _] => destruct b
         end; cbn [fst personal_info]; try done.
  by rewrite dict_get_set_ne.
Qed.

Lemma step_record_keeps_email st line :
  contains (py "Name:") line = true \/ contains (py "Email:") line = false ->
  email_of (step_record st line) = email_of st.
Proof.
  intros H. unfold step_record, email_of.
  rewrite (contains_strip _ _ solid_Name), (contains_strip _ _ solid_Email).
  destruct (contains (py "Name:") line) eqn:Hn.
  - cbn [fst personal_info]. by rewrite dict_get_set_ne.
  - destruct H as [H|H]; [done|]. rewrite H.
    repeat match goal with
           | |- context [if ?b then _ else _] => destruct b
           end; done.
Qed.

Lemma run_record_keeps_name lines st :
  Forall (fun y => contains (py "Name:") y = false) lines ->
  name_of (run_record lines st) = name_of st.
Proof.
  intros H. revert st. induction H as [|line lines Hl _ IH]; intros st; [done|].
  cbn [run_record fold_left]. fold (run_record lines (step_record st line)).
  by rewrite IH, step_record_keeps_name.
Qed.

Lemma run_record_keeps_email lines st :
  Forall (fun y => contains (py "Name:") y = true \/
                   contains (py "Email:") y = false) lines ->
  email_of (run_record lines st) = email_of st.
Proof.
  intros H. revert st. induction H as [|line lines Hl _ IH]; intros st; [done|].
  cbn [run_record fold_left]. fold (run_record lines (step_record st line)).
  by rewrite IH, step_record_keeps_email.
Qed.

Lemma split_nil_lines (l1 : list pystr) x l2 :
  split 0x0A [] = l1 ++ x :: l2 -> x = [].
Proof.
  simpl. intros H. destruct l1 as [|y l1]; simpl in H.
  - by injection H as <- _.
  - injection H as _ H. by destruct l1.
Qed.

(** C9 (amended). With several name lines, the last line that contains
    "Name:" decides [personal_info.name]; with several email lines, the last
    line that contains "Email:" and not "Name:" decides
    [personal_info.email]. *)
Theorem last_personal_line_wins (text : pystr) (l1 : list pystr) (x : pystr)
    (l2 : list pystr) (w : world) :
  split 0x0A text = l1 ++ x :: l2 ->
  (contains (py "Name:") x = true ->
   Forall (fun y => contains (py "Name:") y = false) l2 ->
   exists resume_data,
     fst (classify_text (Some text) w) = Ok resume_data /\
     personal_field resume_data (py "name")
     = Ok (PStr (strip (replace (py "Name:") [] x)))) /\
  (contains (py "Name:") x = false ->
   contains (py "Email:") x = true ->
   Forall (fun y => contains (py "Name:") y = true \/
                    contains (py "Email:") y = false) l2 ->
   exists resume_data,
     fst (classify_text (Some text) w) = Ok resume_data /\
     personal_field resume_data (py "email")
     = Ok (PStr (strip (replace (py "Email:") [] x)))).
Proof.
  intros Hsplit.
  assert (forall p, contains p x = true -> p <> [] -> falsy (Some text) = false)
    as Hfalsy.
  { intros p Hp Hne. destruct text; [|done].
    apply split_nil_lines in Hsplit as ->. by rewrite contains_nil in Hp. }
  split.
  - intros Hx Hl2. eexists. rewrite classify_text_lines by (by eapply Hfalsy).
    split; [reflexivity|]. cbn [fst].
    rewrite personal_field_record, Hsplit.
    change (l1 ++ x :: l2) with (l1 ++ [x] ++ l2).
    rewrite app_assoc, run_record_app.
    fold (name_of (run_record l2 (run_record (l1 ++ [x]) (empty_record, None)))).
    rewrite run_record_keeps_name by done.
    rewrite run_record_app. cbn [run_record fold_left].
    destruct (run_record l1 (empty_record, None)) as [r s].
    rewrite step_record_name by done. unfold name_of. cbn [fst personal_info].
    by rewrite dict_get_set_eq.
  - intros Hn Hx Hl2. eexists. rewrite classify_text_lines by (by eapply Hfalsy).
    split; [reflexivity|]. cbn [fst].
    rewrite personal_field_record, Hsplit.
    change (l1 ++ x :: l2) with (l1 ++ [x] ++ l2).
    rewrite app_assoc, run_record_app.
    fold (email_of (run_record l2 (run_record (l1 ++ [x]) (empty_record, None)))).
    rewrite run_record_keeps_email by done.
    rewrite run_record_app. cbn [run_record fold_left].
    destruct (run_record l1 (empty_record, None)) as [r s].
    rewrite step_record_email by done. unfold email_of. cbn [fst personal_info].
    by rewrite dict_get_set_eq.
Qed.

Lemma last_personal_line_wins_witness :
  (exists resume_data,
     fst (classify_text (Some two_names) (World [] [])) = Ok resume_data /\
     personal_field resume_data (py "name") = Ok (PStr (py "Bob"))) /\
  (exists resume_data,
     fst (classify_text (Some two_emails) (World [] [])) = Ok resume_data /\
     personal_field resume_data (py "email") = Ok (PStr (py "x@y.z"))).
Proof.
  split.
  - apply (proj1 (last_personal_line_wins two_names
                    [py "Name: Ann"; py "Email: a@b.c"] (py "Name: Bob") []
                    (World [] []) eq_refl)).
    + reflexivity.
    + constructor.
  - apply (proj2 (last_personal_line_wins two_emails
                    [py "Email: a@b.c"] (py "Email: x@y.z") [py "Skills"]
                    (World [] []) eq_refl)).
    + reflexivity.
    + reflexivity.
    + constructor; [right; reflexivity | constructor].
Defined.

(** C9, as stated, fails for email lines: the last line that contains
    "Email:" may also contain "Name:", and then it is a name line and the
    email of the earlier line stays. *)

Lemma last_email_line_may_not_win :
  let x := py "Name: Bob Email: x@y.z" in
  ~ (split 0x0A email_then_both = [py "Email: a@b.c"] ++ x :: [] ->
     contains (py "Email:") x = true ->
     Forall (fun y => contains (py "Email:") y = false) [] ->
     exists resume_data,
       fst (classify_text (Some email_then_both) (World [] [])) = Ok resume_data /\
       personal_field resume_data (py "email")
       = Ok (PStr (strip (replace (py "Email:") [] x)))).
Proof.
  intros x H.
  destruct H as (resume_data & Hrun & Hfield);
    [reflexivity | reflexivity | constructor |].
  vm_compute in Hrun. injection Hrun as <-.
  vm_compute in Hfield. discriminate Hfield.
Qed.

(** * Further properties of the program *)

(** ** More on the line classifier *)

Lemma first_match_strip line : first_match (strip line) = first_match line.
Proof.
  unfold first_match, priority. cbn [List.find label].
  by rewrite (contains_strip _ _ solid_Name), (contains_strip _ _ solid_Email),
    (contains_strip _ _ solid_Education), (contains_strip _ _ solid_Experience),
    (contains_strip _ _ solid_Skills).
Qed.

Lemma first_match_None line :
  first_match line = None <->
  contains (py "Name:") line = false /\
  contains (py "Email:") line = false /\
  contains (py "Education") line = false /\
  contains (py "Experience") line = false /\
  contains (py "Skills") line = false.
Proof.
  unfold first_match, priority. cbn [List.find label].
  destruct (contains (py "Name:") line), (contains (py "Email:") line),
    (contains (py "Education") line), (contains (py "Experience") line),
    (contains (py "Skills") line); split; intros; intuition congruence.
Qed.

Lemma step_record_first_match st line :
  step_record st line =
  match first_match line with
  | Some NameRule =>
      (Record_ (dict_set (personal_info (fst st)) (py "name")
                  (strip (replace (py "Name:") [] line)))
               (education (fst st)) (work_experience (fst st)) (skills (fst st)),
       snd st)
  | Some EmailRule =>
      (Record_ (dict_set (personal_info (fst st)) (py "email")
                  (strip (replace (py "Email:") [] line)))
               (education (fst st)) (work_experience (fst st)) (skills (fst st)),
       snd st)
  | Some EducationRule => (fst st, Some (py "education"))
  | Some ExperienceRule => (fst st, Some (py "work_experience"))
  | Some SkillsRule => (fst st, Some (py "skills"))
  | None =>
      if section_is (snd st) (py "education") then
        (Record_ (personal_info (fst st)) (education (fst st) ++ [strip line])
                 (work_experience (fst st)) (skills (fst st)), snd st)
      else if section_is (snd st) (py "work_experience") then
        (Record_ (personal_info (fst st)) (education (fst st))
                 (work_experience (fst st) ++ [strip line]) (skills (fst st)), snd st)
      else if section_is (snd st) (py "skills") then
        (Record_ (personal_info (fst st)) (education (fst st))
                 (work_experience (fst st)) (skills (fst st) ++ [strip line]), snd st)
      else st
  end.
Proof.
  unfold step_record, first_match, priority. cbn [List.find label].
  rewrite !(contains_strip _ _ solid_Name), !(contains_strip _ _ solid_Email),
    !(contains_strip _ _ solid_Education), !(contains_strip _ _ solid_Experience),
    !(contains_strip _ _ solid_Skills).
  rewrite <- (replace_strip _ _ solid_Name), <- (replace_strip _ _ solid_Email).
  destruct (contains (py "Name:") line); [done|].
  destruct (contains (py "Email:") line); [done|].
  destruct (contains (py "Education") line); [done|].
  destruct (contains (py "Experience") line); [done|].
  destruct (contains (py "Skills") line); [done|].
  repeat match goal with
         | |- context [if ?b then _ else _] => destruct b
         end; try done.
  by destruct st.
Qed.





(** ** Invariants of a run *)

Lemma dict_get_None {V} (d : list (pystr * V)) k :
  dict_get d k = None <-> k ∉ dict_keys d.
Proof.
  induction d as [|[k0 v0] d IH]; simpl.
  - split; [intros _ H; inversion H | done].
  - rewrite not_elem_of_cons. destruct (str_eqb k0 k) eqn:E.
    + apply str_eqb_eq in E as ->. split; [done | intros [H _]; done].
    + apply str_eqb_neq in E. rewrite IH. split; [intros H; split; congruence | tauto].
Qed.

Lemma dict_set_NoDup {V} (d : list (pystr * V)) k v :
  NoDup (dict_keys d) -> NoDup (dict_keys (dict_set d k v)).
Proof.
  intros H. rewrite dict_keys_set. destruct (dict_get d k) eqn:E; [done|].
  apply dict_get_None in E. apply NoDup_app. split; [done|].
  split; [|apply NoDup_singleton].
  intros x Hx Hin. apply list_elem_of_singleton in Hin as ->. done.
Qed.

Lemma dict_set_Forall {V} (Q : pystr * V -> Prop) (d : list (pystr * V)) k v :
  Forall Q d -> Q (k, v) -> Forall Q (dict_set d k v).
Proof.
  intros Hd Hkv. induction Hd as [|[k0 v0] d H0 Hd IH]; simpl.
  - by constructor.
  - destruct (str_eqb k0 k) eqn:E.
    + apply str_eqb_eq in E as ->. by constructor.
    + by constructor.
Qed.

Lemma plain_entry_strip line : first_match line = None -> plain_entry (strip line).
Proof. intros H. split; [apply strip_idem | by rewrite first_match_strip]. Qed.

Lemma step_record_tidy st line : tidy (fst st) -> tidy (fst (step_record st line)).
Proof.
  intros (Hk & Hi & He & Hw & Hs). rewrite step_record_first_match.
  destruct (first_match line) as [[| | | |]|] eqn:E; cbn [fst]; try done.
  - split; [by apply dict_set_NoDup|]. split; [|done].
    apply dict_set_Forall; [done|]. split; [by left | apply strip_idem].
  - split; [by apply dict_set_NoDup|]. split; [|done].
    apply dict_set_Forall; [done|]. split; [by right | apply strip_idem].
  - pose proof (plain_entry_strip line E) as Hp.
    repeat match goal with
           | |- context [if ?b then _ else _] => destruct b
           end; cbn [fst]; unfold tidy; cbn [personal_info education work_experience skills];
      rewrite ?Forall_app; repeat split; try done; by constructor.
Qed.

Lemma run_record_tidy lines st : tidy (fst st) -> tidy (fst (run_record lines st)).
Proof.
  revert st. induction lines as [|line lines IH]; intros st H; [done|].
  cbn [run_record fold_left]. apply IH. by apply step_record_tidy.
Qed.

Lemma classified_tidy text : tidy (classified text).
Proof.
  assert (tidy empty_record) as H0.
  { unfold tidy. cbn. repeat split; constructor. }
  unfold classified. destruct (falsy text); [done|]. by apply run_record_tidy.
Qed.

(** X3. Every entry of the three lists of the returned record is a trimmed
    input line that contains none of the five labels. *)
Theorem entries_trimmed_without_labels (text : option pystr) (w : world) :
  exists r,
    fst (classify_text text w) = Ok (record_obj r) /\
    Forall plain_entry (education r) /\
    Forall plain_entry (work_experience r) /\
    Forall plain_entry (skills r).
Proof.
  exists (classified text). split; [apply classify_text_result|].
  destruct (classified_tidy text) as (_ & _ & He & Hw & Hs). done.
Qed.

(** X4. The [personal_info] of the returned record has no other keys than
    [name] and [email], each at most once, and its values are trimmed. *)
Theorem personal_info_shape (text : option pystr) (w : world) :
  exists r,
    fst (classify_text text w) = Ok (record_obj r) /\
    NoDup (dict_keys (personal_info r)) /\
    Forall personal_item (personal_info r).
Proof.
  exists (classified text). split; [apply classify_text_result|].
  destruct (classified_tidy text) as (Hk & Hi & _). done.
Qed.

(** ** Lines before the first section header *)

Lemma run_record_no_header lines info :
  Forall personal_or_plain lines ->
  exists info',
    run_record lines (Record_ info [] [] [], None) = (Record_ info' [] [] [], None) /\
    (Forall (fun l => first_match l = None) lines -> info' = info).
Proof.
  intros H. revert info. induction H as [|line lines Hl _ IH]; intros info.
  - exists info. done.
  - cbn [run_record fold_left]. rewrite step_record_first_match. cbn [fst snd].
    destruct Hl as [E | [E | E]]; rewrite E; cbn [section_is].
    + destruct (IH info) as (info' & Hrun & Hsame). exists info'.
      split; [done|]. intros Hall. apply Hsame. by inversion Hall.
    + cbn [personal_info education work_experience skills].
      edestruct IH as (info' & Hrun & _). exists info'. split; [exact Hrun|].
      intros Hall. inversion Hall; congruence.
    + cbn [personal_info education work_experience skills].
      edestruct IH as (info' & Hrun & _). exists info'. split; [exact Hrun|].
      intros Hall. inversion Hall; congruence.
Qed.

(** X5. As long as no line is a section header, nothing is stored in the
    three lists: a text whose lines are all personal-information lines or
    lines without a label gives three empty lists, and a text without any
    label at all gives the initial all-empty record. *)
Theorem no_header_no_entries (text : pystr) (w : world) :
  Forall personal_or_plain (split 0x0A text) ->
  exists info,
    fst (classify_text (Some text) w) = Ok (record_obj (Record_ info [] [] [])) /\
    (Forall (fun l => first_match l = None) (split 0x0A text) ->
     fst (classify_text (Some text) w) = Ok resume_data_init).
Proof.
  intros H. rewrite classify_text_result. unfold classified.
  destruct (falsy (Some text)) eqn:E.
  - exists []. done.
  - change (default [] (Some text)) with text.
    destruct (run_record_no_header (split 0x0A text) [] H) as (info' & Hrun & Hsame).
    unfold empty_record. rewrite Hrun. exists info'. split; [done|].
    intros Hall. by rewrite (Hsame Hall).
Qed.

Lemma no_header_no_entries_witness :
  exists info,
    fst (classify_text (Some sample_no_header) (World [] []))
    = Ok (record_obj (Record_ info [] [] [])).
Proof.
  destruct (no_header_no_entries sample_no_header (World [] [])) as (info & H & _).
  - repeat constructor; unfold personal_or_plain; vm_compute; tauto.
  - exists info. exact H.
Defined.

(** ** Personal-information lines and the sections *)

Lemma step_record_sections st st' line :
  sections_of st = sections_of st' ->
  sections_of (step_record st line) = sections_of (step_record st' line).
Proof.
  destruct st as [[i e x s] sec], st' as [[i' e' x' s'] sec'].
  unfold sections_of. cbn [fst snd education work_experience skills].
  intros [= -> -> -> ->]. rewrite !step_record_first_match.
  destruct (first_match line) as [[| | | |]|];
    cbn [fst snd education work_experience skills]; try done.
  repeat match goal with
         | |- context [if ?b then _ else _] => destruct b
         end; done.
Qed.

Lemma run_record_sections lines st st' :
  sections_of st = sections_of st' ->
  sections_of (run_record lines st) = sections_of (run_record lines st').
Proof.
  revert st st'. induction lines as [|line lines IH]; intros st st' H; [done|].
  cbn [run_record fold_left]. apply IH. by apply step_record_sections.
Qed.

Lemma step_record_personal st line :
  first_match line = Some NameRule \/ first_match line = Some EmailRule ->
  sections_of (step_record st line) = sections_of st.
Proof.
  intros H. rewrite step_record_first_match. by destruct H as [-> | ->].
Qed.

(** X6. Personal-information lines are transparent to the sections: taking
    a "Name:" or "Email:" line out of the text, wherever it stands, changes
    neither the three lists nor the final section. *)
Theorem personal_lines_transparent (l1 : list pystr) (x : pystr)
    (l2 : list pystr) (r0 : ResumeRecord) (section0 : option pystr) (w : world) :
  first_match x = Some NameRule \/ first_match x = Some EmailRule ->
  exists r r' section,
    fst (for_lines (l1 ++ x :: l2) (record_obj r0, section0) w)
    = Ok (record_obj r, section) /\
    fst (for_lines (l1 ++ l2) (record_obj r0, section0) w)
    = Ok (record_obj r', section) /\
    education r = education r' /\
    work_experience r = work_experience r' /\
    skills r = skills r'.
Proof.
  intros H. rewrite !for_lines_record. cbn [fst].
  assert (sections_of (run_record (l1 ++ x :: l2) (r0, section0))
          = sections_of (run_record (l1 ++ l2) (r0, section0))) as E.
  { rewrite !run_record_app. cbn [run_record fold_left].
    apply run_record_sections. by apply step_record_personal. }
  unfold sections_of in E. injection E as He Hw Hs Hsec.
  eexists _, _, _. split; [reflexivity|]. split; [by rewrite Hsec|]. done.
Qed.

Lemma personal_lines_transparent_witness :
  exists r r' section,
    fst (for_lines ([py "Skills"] ++ py "Name: Jane" :: [py "Rocq"])
           (record_obj empty_record, None) (World [] []))
    = Ok (record_obj r, section) /\
    fst (for_lines ([py "Skills"] ++ [py "Rocq"])
           (record_obj empty_record, None) (World [] []))
    = Ok (record_obj r', section) /\
    education r = education r' /\
    work_experience r = work_experience r' /\
    skills r = skills r'.
Proof.
  apply (personal_lines_transparent [py "Skills"] (py "Name: Jane") [py "Rocq"]
           empty_record None (World [] [])).
  left. reflexivity.
Defined.

(** ** What the program prints *)

Lemma shown_app `{h : host} l1 l2 :
  shown (l1 ++ l2)
  = if snd (shown l1) then (fst (shown l1) ++ fst (shown l2), snd (shown l2))
    else shown l1.
Proof.
  induction l1 as [|e l1 IH]; [cbn; by destruct (shown l2)|].
  cbn [app shown]. destruct (accepted e); [|done].
  rewrite IH. cbn [fst snd]. destruct (snd (shown l1)) eqn:E; cbn [fst snd]; [done|].
  by rewrite E.
Qed.

Lemma shown_all `{h : host} l : snd (shown l) = true -> fst (shown l) = l.
Proof.
  induction l as [|e l IH]; [done|]. cbn [shown].
  destruct (accepted e); [|done]. cbn [fst snd]. intros H. by rewrite IH.
Qed.

Lemma shown_forallb `{h : host} l : snd (shown l) = forallb accepted l.
Proof.
  induction l as [|e l IH]; [done|]. cbn [shown forallb].
  by destruct (accepted e).
Qed.

Lemma prints_ret `{h : host} : prints (ret tt) [].
Proof. intros w. cbn. rewrite app_nil_r. by destruct w. Qed.

Lemma prints_print `{h : host} msg : prints (print msg) [Print msg].
Proof.
  intros w. unfold print. cbn [shown accepted].
  destruct (literal msg || console_accepts msg); unfold emit, raise;
    cbn [fst snd]; [done|].
  rewrite app_nil_r. by destruct w.
Qed.

Lemma prints_bind `{h : host} m1 m2 l1 l2 :
  prints m1 l1 -> prints m2 l2 -> prints (_ <~ m1 ;; m2) (l1 ++ l2).
Proof.
  intros H1 H2 w. unfold bind. rewrite H1, shown_app.
  destruct (snd (shown l1)) eqn:E; [|by rewrite E].
  rewrite H2. cbn [fs events fst snd]. by rewrite <- app_assoc.
Qed.

Lemma prints_lift `{h : host} {A} (a : A) (k : A -> M unit) l :
  prints (k a) l -> prints (x <~ lift (Ok a) ;; k x) l.
Proof. intros H w. unfold bind, lift. apply H. Qed.

Lemma print_entries_list `{h : host} entries :
  prints (print_entries (PList (map PStr entries))) (map entry_line entries).
Proof.
  unfold print_entries. cbn [py_iter]. apply prints_lift.
  induction entries as [|e entries IH]; [apply prints_ret|].
  cbn [map fold_right].
  apply (prints_bind _ _ [entry_line e]); [apply prints_print | apply IH].
Qed.

Lemma print_resume_record `{h : host} r :
  prints (print_resume (record_obj r)) (console_output r).
Proof.
  unfold print_resume, console_output.
  assert (forall key (lbl : pystr),
    prints
      (if match PStr <$> dict_get (personal_info r) key with
          | Some _ => true | None => false end
       then name <~ lift (getitem
               (PDict (map (fun kv => (fst kv, PStr (snd kv))) (personal_info r))) key) ;;
            print [Lit lbl; Val name]
       else ret tt)
      match dict_get (personal_info r) key with
      | Some v => [Print [Lit lbl; Val (PStr v)]]
      | None => []
      end) as Hfield.
  { intros key lbl. cbn [getitem]. rewrite (dict_get_map PStr).
    destruct (dict_get (personal_info r) key); cbn [fmap option_fmap option_map].
    - apply prints_lift, prints_print.
    - apply prints_ret. }
  apply prints_bind; [apply prints_print|].
  cbn [getitem record_obj dict_get].
  change (str_eqb (py "personal_info") (py "personal_info")) with true. cbv iota.
  apply prints_lift. cbn [py_in]. rewrite (dict_get_map PStr).
  apply prints_lift.
  apply prints_bind; [apply (Hfield (py "name") (py "Name: "))|].
  rewrite (dict_get_map PStr). apply prints_lift.
  apply prints_bind; [apply (Hfield (py "email") (py "Email: "))|].
  apply prints_bind; [apply prints_print|].
  change (str_eqb (py "personal_info") (py "education")) with false.
  change (str_eqb (py "education") (py "education")) with true. cbv iota.
  apply prints_lift. apply prints_bind; [apply print_entries_list|].
  apply prints_bind; [apply prints_print|].
  change (str_eqb (py "personal_info") (py "work_experience")) with false.
  change (str_eqb (py "education") (py "work_experience")) with false.
  change (str_eqb (py "work_experience") (py "work_experience")) with true. cbv iota.
  apply prints_lift. apply prints_bind; [apply print_entries_list|].
  apply prints_bind; [apply prints_print|].
  change (str_eqb (py "personal_info") (py "skills")) with false.
  change (str_eqb (py "education") (py "skills")) with false.
  change (str_eqb (py "work_experience") (py "skills")) with false.
  change (str_eqb (py "skills") (py "skills")) with true. cbv iota.
  apply prints_lift. apply print_entries_list.
Qed.


(** A UTF-8 console shows a name with an accent, and refuses an entry that
    holds a lone surrogate: the lines before it have appeared. *)
Example print_resume_accent :
  print_resume (record_obj (Record_ [(py "name", [0x5A; 0x6F; 0xEB])] [] [] []))
    (World [] [])
  = (Ok tt,
     World [] [Print [Lit (0x0A :: py "Personal Information:")];
               Print [Lit (py "Name: "); Val (PStr [0x5A; 0x6F; 0xEB])];
               Print [Lit (0x0A :: py "Education:")];
               Print [Lit (0x0A :: py "Work Experience:")];
               Print [Lit (0x0A :: py "Skills:")]]).
Proof. reflexivity. Qed.

Example print_resume_lone_surrogate :
  print_resume (record_obj (Record_ [] [py "BSc"; [0xD83D]; py "MSc"] [] []))
    (World [] [])
  = (Raise UnicodeEncodeError,
     World [] [Print [Lit (0x0A :: py "Personal Information:")];
               Print [Lit (0x0A :: py "Education:")];
               Print [Lit (py "- "); Val (PStr (py "BSc"))]]).
Proof. reflexivity. Qed.



(** ** [parse_pdf_resume] and [save_to_json] in the world *)

Lemma classify_text_trace text w :
  classify_text (Some text) w
  = (Ok (record_obj (classified (Some text))),
     World (fs w) (events w ++ scan_trace text)).
Proof.
  unfold classified, scan_trace. destruct (falsy (Some text)) eqn:E.
  - by rewrite classify_text_falsy.
  - by rewrite classify_text_lines.
Qed.

Lemma parse_pdf_resume_ok pdfplumber file_path data pages w :
  dict_get (fs w) file_path = Some (RegularFile data) ->
  pdfplumber data = Ok pages ->
  parse_pdf_resume pdfplumber file_path w
  = (Ok (record_obj (classified (Some (join [0x0A] (page_texts pages))))),
     World (fs w)
       (events w ++ OpenPdf file_path :: scan_trace (join [0x0A] (page_texts pages)))).
Proof.
  intros Hf Hp. unfold parse_pdf_resume, extract_text, open_pdf.
  unfold bind, try_except, emit, ret. cbn [fs events].
  rewrite Hf, Hp, classify_text_trace. cbn [fs events].
  by rewrite <- app_assoc.
Qed.

(** X9. When the PDF cannot be read ([pdfplumber] raises, or the path is
    not a regular file), [parse_pdf_resume] logs one ERROR line that carries
    the exception and re-raises that same exception; no line is scanned and
    the file system is unchanged. *)
Theorem extraction_failure_logged_and_raised
    (pdfplumber : pystr -> outcome (list (option pystr)))
    (file_path : pystr) (w : world) (e : exn) :
  match dict_get (fs w) file_path with
  | Some (RegularFile data) => pdfplumber data = Raise e
  | _ => e = OSError file_path
  end ->
  parse_pdf_resume pdfplumber file_path w
  = (Raise e,
     World (fs w)
       (events w ++ [OpenPdf file_path;
                     Log ERROR [Lit (py "Failed to read PDF file: "); Exc e]])).
Proof.
  intros H. unfold parse_pdf_resume, extract_text, open_pdf.
  unfold bind, try_except, emit, ret, raise. cbn [fs events].
  destruct (dict_get (fs w) file_path) as [[|data]|]; try rewrite H; subst;
    cbn [fs events]; by rewrite <- app_assoc.
Qed.

Lemma extraction_failure_logged_and_raised_witness :
  parse_pdf_resume (fun _ => Raise (PdfError (py "No /Root object")))
    (py "cv.pdf") (World [(py "cv.pdf", RegularFile (py "junk"))] [])
  = (Raise (PdfError (py "No /Root object")),
     World [(py "cv.pdf", RegularFile (py "junk"))]
       [OpenPdf (py "cv.pdf");
        Log ERROR [Lit (py "Failed to read PDF file: ");
                   Exc (PdfError (py "No /Root object"))]]).
Proof.
  apply (extraction_failure_logged_and_raised
           (fun _ => Raise (PdfError (py "No /Root object"))) (py "cv.pdf")
           (World [(py "cv.pdf", RegularFile (py "junk"))] [])
           (PdfError (py "No /Root object"))).
  reflexivity.
Defined.

(** X10. When the PDF is read, [parse_pdf_resume] never raises: it returns
    a record of the four-field shape, opens the PDF once, scans every line of
    the joined page texts once and in order (or logs the warning when there
    is no text), and leaves the file system unchanged. *)
Theorem parse_scans_every_line_once
    (pdfplumber : pystr -> outcome (list (option pystr)))
    (file_path data : pystr) (pages : list (option pystr)) (w : world) :
  dict_get (fs w) file_path = Some (RegularFile data) ->
  pdfplumber data = Ok pages ->
  let text := join [0x0A] (page_texts pages) in
  exists r,
    parse_pdf_resume pdfplumber file_path w
    = (Ok (record_obj r),
       World (fs w)
         (events w ++ OpenPdf file_path ::
            (if falsy (Some text) then [no_text_warning]
             else map ScanLine (split 0x0A text)))).
Proof.
  intros Hf Hp text. eexists. by rewrite (parse_pdf_resume_ok _ _ _ _ _ Hf Hp).
Qed.

Lemma parse_scans_every_line_once_witness :
  exists r,
    parse_pdf_resume (fun _ => Ok [Some (py "Skills"); None; Some (py "Rocq")])
      (py "cv.pdf") (World [(py "cv.pdf", RegularFile (py "%PDF"))] [])
    = (Ok (record_obj r),
       World [(py "cv.pdf", RegularFile (py "%PDF"))]
         [OpenPdf (py "cv.pdf"); ScanLine (py "Skills"); ScanLine (py "Rocq")]).
Proof.
  apply (parse_scans_every_line_once
           (fun _ => Ok [Some (py "Skills"); None; Some (py "Rocq")])
           (py "cv.pdf") (py "%PDF") [Some (py "Skills"); None; Some (py "Rocq")]
           (World [(py "cv.pdf", RegularFile (py "%PDF"))] []));
    reflexivity.
Defined.

Lemma save_to_json_ok `{h : host} data output_file w :
  can_save data output_file w ->
  exists w', save_to_json data output_file w = (Ok tt, w').
Proof.
  intros (Hdir & Hperm & Hroom).
  unfold save_to_json, try_except, bind, open_w, json_dump.
  rewrite Hperm, Hroom.
  destruct (dict_get (fs w) output_file) as [[|old]|]; [done | |]; by eexists.
Qed.

Lemma save_to_json_ok_inv `{h : host} data output_file w w' :
  save_to_json data output_file w = (Ok tt, w') ->
  can_save data output_file w.
Proof.
  unfold can_save, save_to_json, try_except, bind, open_w, json_dump.
  set (written := iterencode _ _ _ _ _ _).
  destruct (dict_get (fs w) output_file) as [[|old]|];
    [done | |]; (destruct (may_write output_file); [|done]);
    (destruct (snd written); [|done]); by intros _.
Qed.

Lemma save_to_json_raise `{h : host} data output_file w :
  dict_get (fs w) output_file = Some Directory ->
  save_to_json data output_file w
  = (Raise (OSError output_file),
     World (fs w)
       (events w ++ [Log ERROR [Lit (py "Failed to write JSON file: ");
                                Exc (OSError output_file)]])).
Proof.
  intros Hdir. unfold save_to_json, try_except, bind at 1, open_w. by rewrite Hdir.
Qed.

(** The record with nothing in it needs room for two nested containers. *)
Lemma empty_record_room indent isep ksep room :
  (2 <= room)%nat ->
  snd (iterencode indent isep ksep room 0 resume_data_init) = true.
Proof. intros Hroom. destruct room as [|[|room]]; [lia | lia | reflexivity]. Qed.


(** The empty list, saved beside a PDF. *)
Example save_to_json_empty_list :
  save_to_json (PList []) (py "out.json")
    (World [(py "cv.pdf", RegularFile (py "%PDF"))] [])
  = (Ok tt,
     World [(py "cv.pdf", RegularFile (py "%PDF"));
            (py "out.json", RegularFile (py "[]"))] []).
Proof. reflexivity. Qed.

(** Data that nests deeper than the interpreter allows: [RecursionError] is
    not an [IOError], so nothing is logged, and the file keeps what was
    written before the dump stopped. *)
Example save_to_json_too_deep :
  @save_to_json (Host utf8_accepts (fun _ => true) 2) (PList [PList [PList []]])
    (py "out.json") (World [] [])
  = (Raise RecursionError,
     World [(py "out.json", RegularFile (py "[" ++ [0x0A] ++ py "    "))] []).
Proof. reflexivity. Qed.

(** X12. When the output path cannot be opened for writing, [save_to_json]
    logs one ERROR line carrying the exception, re-raises it, and writes
    nothing. *)
Theorem write_failure_logged_and_raised `{h : host} (data : pyval)
    (output_file : pystr) (w : world) :
  dict_get (fs w) output_file = Some Directory ->
  save_to_json data output_file w
  = (Raise (OSError output_file),
     World (fs w)
       (events w ++ [Log ERROR [Lit (py "Failed to write JSON file: ");
                                Exc (OSError output_file)]])).
Proof.
  intros Hdir. by apply save_to_json_raise.
Qed.

Lemma write_failure_logged_and_raised_witness :
  save_to_json resume_data_init (py "out") (World [(py "out", Directory)] [])
  = (Raise (OSError (py "out")),
     World [(py "out", Directory)]
       [Log ERROR [Lit (py "Failed to write JSON file: "); Exc (OSError (py "out"))]]).
Proof.
  apply (write_failure_logged_and_raised resume_data_init (py "out")
           (World [(py "out", Directory)] [])).
  reflexivity.
Defined.

(** ** [main] *)

(** [main] on a readable PDF, up to the point where the resume has been
    parsed and printed: what is left is the save and the last log line. *)
Lemma main_printed `{h : host} pdfplumber file_path output_file data pages w :
  dict_get (fs w) file_path = Some (RegularFile data) ->
  pdfplumber data = Ok pages ->
  let text := join [0x0A] (page_texts pages) in
  let r := classified (Some text) in
  forallb accepted (console_output r) = true ->
  main pdfplumber file_path output_file w
  = (_ <~ save_to_json (record_obj r) output_file ;;
     emit (saved_message output_file))
      (World (fs w)
         (events w ++ OpenPdf file_path :: scan_trace text ++ console_output r)).
Proof.
  intros Hf Hp text r Hcon. unfold main.
  unfold bind at 1, isfile. rewrite Hf. cbn [negb].
  unfold bind at 1. rewrite (parse_pdf_resume_ok _ _ _ _ _ Hf Hp).
  unfold bind at 1. rewrite print_resume_record. fold text r.
  rewrite shown_forallb, Hcon, shown_all by (by rewrite shown_forallb).
  cbn [fs events]. by rewrite <- !app_assoc.
Qed.

(** When the console refuses a line, [main] stops there. *)
Lemma main_refused `{h : host} pdfplumber file_path output_file data pages w :
  dict_get (fs w) file_path = Some (RegularFile data) ->
  pdfplumber data = Ok pages ->
  let r := classified (Some (join [0x0A] (page_texts pages))) in
  forallb accepted (console_output r) = false ->
  fst (main pdfplumber file_path output_file w) = Raise UnicodeEncodeError.
Proof.
  intros Hf Hp r Hcon. unfold main.
  unfold bind at 1, isfile. rewrite Hf. cbn [negb].
  unfold bind at 1. rewrite (parse_pdf_resume_ok _ _ _ _ _ Hf Hp).
  unfold bind at 1. rewrite print_resume_record. fold r.
  by rewrite shown_forallb, Hcon.
Qed.

(** A run of [main] on a readable PDF that returns: every line was
    printed, the save returned, and the last line was logged. *)
Lemma main_returns `{h : host} pdfplumber file_path output_file data pages w w' :
  dict_get (fs w) file_path = Some (RegularFile data) ->
  pdfplumber data = Ok pages ->
  main pdfplumber file_path output_file w = (Ok tt, w') ->
  let text := join [0x0A] (page_texts pages) in
  let r := classified (Some text) in
  dict_get (fs w') output_file = Some (RegularFile (json_text 4 (record_obj r))) /\
  events w'
  = events w ++ OpenPdf file_path :: scan_trace text
      ++ console_output r ++ [saved_message output_file].
Proof.
  intros Hf Hp Hmain text r.
  destruct (forallb accepted (console_output r)) eqn:Hcon.
  - rewrite (main_printed _ _ _ _ _ _ Hf Hp Hcon) in Hmain. fold text r in Hmain.
    unfold bind in Hmain.
    destruct (save_to_json (record_obj r) output_file _) as [[[]|e] w1] eqn:Hsave;
      [|done].
    apply save_to_json_returns in Hsave as [Hfile Hev].
    unfold emit in Hmain. injection Hmain as <-. cbn [fs events].
    split; [done|]. rewrite Hev. cbn [events].
    rewrite <- app_assoc. cbn [app]. by rewrite <- app_assoc.
  - pose proof (main_refused _ _ output_file _ _ _ Hf Hp Hcon) as Href.
    by rewrite Hmain in Href.
Qed.



(** X14. When the input is a regular file that cannot be read as a PDF,
    [main] raises the exception of the extraction after the ERROR line of
    [parse_pdf_resume]: nothing is printed and no output file is written. *)
Theorem main_extraction_failure `{h : host}
    (pdfplumber : pystr -> outcome (list (option pystr)))
    (file_path output_file data : pystr) (e : exn) (w : world) :
  dict_get (fs w) file_path = Some (RegularFile data) ->
  pdfplumber data = Raise e ->
  main pdfplumber file_path output_file w
  = (Raise e,
     World (fs w)
       (events w ++ [OpenPdf file_path;
                     Log ERROR [Lit (py "Failed to read PDF file: "); Exc e]])).
Proof.
  intros Hf Hp. unfold main. unfold bind at 1, isfile. rewrite Hf. cbn [negb].
  unfold bind at 1.
  unfold parse_pdf_resume, extract_text, open_pdf.
  unfold bind, try_except, emit, ret, raise. cbn [fs events].
  rewrite Hf, Hp. cbn [fs events]. by rewrite <- app_assoc.
Qed.

Lemma main_extraction_failure_witness :
  main (fun _ => Raise (PdfError (py "bad xref"))) (py "cv.pdf") (py "out.json")
    (World [(py "cv.pdf", RegularFile (py "junk"))] [])
  = (Raise (PdfError (py "bad xref")),
     World [(py "cv.pdf", RegularFile (py "junk"))]
       [OpenPdf (py "cv.pdf");
        Log ERROR [Lit (py "Failed to read PDF file: ");
                   Exc (PdfError (py "bad xref"))]]).
Proof.
  apply (main_extraction_failure (fun _ => Raise (PdfError (py "bad xref")))
           (py "cv.pdf") (py "out.json") (py "junk") (PdfError (py "bad xref"))
           (World [(py "cv.pdf", RegularFile (py "junk"))] []));
    reflexivity.
Defined.

(** X15. When the output path is a directory and the console has taken
    every line, [main] has already parsed and printed the resume; it then
    logs the write failure and raises [OSError]: no file is written and the
    final INFO line is not logged. *)
Theorem main_write_failure `{h : host}
    (pdfplumber : pystr -> outcome (list (option pystr)))
    (file_path output_file data : pystr) (pages : list (option pystr))
    (w : world) :
  dict_get (fs w) file_path = Some (RegularFile data) ->
  pdfplumber data = Ok pages ->
  dict_get (fs w) output_file = Some Directory ->
  let text := join [0x0A] (page_texts pages) in
  forallb accepted (console_output (classified (Some text))) = true ->
  main pdfplumber file_path output_file w
  = (Raise (OSError output_file),
     World (fs w)
       (events w ++ OpenPdf file_path :: scan_trace text
          ++ console_output (classified (Some text))
          ++ [Log ERROR [Lit (py "Failed to write JSON file: ");
                         Exc (OSError output_file)]])).
Proof.
  intros Hf Hp Hout text Hcon.
  rewrite (main_printed _ _ _ _ _ _ Hf Hp Hcon). fold text.
  unfold bind. rewrite save_to_json_raise by done. cbn [fs events].
  rewrite <- app_assoc. cbn [app]. by rewrite <- app_assoc.
Qed.

Lemma main_write_failure_witness :
  main (fun _ => Ok [Some (py "Skills"); Some (py "Rocq")]) (py "cv.pdf") (py "out")
    (World [(py "cv.pdf", RegularFile (py "%PDF")); (py "out", Directory)] [])
  = (Raise (OSError (py "out")),
     World [(py "cv.pdf", RegularFile (py "%PDF")); (py "out", Directory)]
       [OpenPdf (py "cv.pdf"); ScanLine (py "Skills"); ScanLine (py "Rocq");
        Print [Lit (0x0A :: py "Personal Information:")];
        Print [Lit (0x0A :: py "Education:")];
        Print [Lit (0x0A :: py "Work Experience:")];
        Print [Lit (0x0A :: py "Skills:")];
        Print [Lit (py "- "); Val (PStr (py "Rocq"))];
        Log ERROR [Lit (py "Failed to write JSON file: ");
                   Exc (OSError (py "out"))]]).
Proof.
  apply (main_write_failure (fun _ => Ok [Some (py "Skills"); Some (py "Rocq")])
           (py "cv.pdf") (py "out") (py "%PDF")
           [Some (py "Skills"); Some (py "Rocq")]
           (World [(py "cv.pdf", RegularFile (py "%PDF")); (py "out", Directory)] []));
    reflexivity.
Defined.

(** X16. An input path that names a directory is handled like a missing
    file: [os.path.isfile] is false, and [main] logs the same error and
    returns without opening, printing or writing anything. *)
Theorem main_directory_input `{h : host}
    (pdfplumber : pystr -> outcome (list (option pystr)))
    (file_path output_file : pystr) (w : world) :
  dict_get (fs w) file_path = Some Directory ->
  main pdfplumber file_path output_file w
  = (Ok tt,
     World (fs w)
       (events w ++ [Log ERROR [Lit (py "The provided file path does not exist.")]])).
Proof.
  intros Hdir. unfold main. unfold bind at 1, isfile. rewrite Hdir. reflexivity.
Qed.

Lemma main_directory_input_witness :
  main (fun _ => Ok []) (py "docs") (py "out.json") (World [(py "docs", Directory)] [])
  = (Ok tt,
     World [(py "docs", Directory)]
       [Log ERROR [Lit (py "The provided file path does not exist.")]]).
Proof.
  apply (main_directory_input (fun _ => Ok []) (py "docs") (py "out.json")
           (World [(py "docs", Directory)] [])).
  reflexivity.
Defined.



(** ** The JSON text is ASCII *)

Lemma hexdigit_ascii d : d < 16 -> ascii_text (hexdigit d) = true.
Proof.
  intros H. unfold ascii_text, hexdigit. apply orb_true_iff. right.
  apply andb_true_iff. destruct (N.ltb_spec d 10); split; apply N.leb_le; lia.
Qed.

Lemma format_04x_ascii n : all_ascii (format_04x n).
Proof.
  unfold format_04x. repeat constructor; apply hexdigit_ascii, N.mod_lt; lia.
Qed.

Lemma escape_char_ascii c : all_ascii (escape_char c).
Proof.
  case_escape c; try (by repeat constructor).
  - constructor; [|constructor]. unfold ascii_text. rewrite Heqb. apply orb_true_r.
  - apply Forall_app. split; [by repeat constructor | apply format_04x_ascii].
  - cbv zeta. repeat (apply Forall_app; split);
      try apply format_04x_ascii; by repeat constructor.
Qed.

Lemma encode_basestring_ascii_ascii s : all_ascii (encode_basestring_ascii s).
Proof.
  unfold encode_basestring_ascii. constructor; [done|].
  apply Forall_app. split; [|by repeat constructor].
  induction s as [|c s IH]; [constructor|]. cbn [flat_map].
  apply Forall_app. split; [apply escape_char_ascii | done].
Qed.

Lemma join_ascii sep parts :
  all_ascii sep -> Forall all_ascii parts -> all_ascii (join sep parts).
Proof.
  intros Hsep Hparts. destruct Hparts as [|p parts Hp Hparts]; [constructor|].
  rewrite join_cons. apply Forall_app. split; [done|].
  induction Hparts as [|q parts Hq _ IH]; [constructor|]. cbn [flat_map].
  repeat (apply Forall_app; split); done.
Qed.

Lemma newline_ascii n level : all_ascii (newline n level).
Proof.
  unfold newline, newline_indent. constructor; [done|].
  unfold str_mul. induction level as [|level IH]; [constructor|].
  cbn [repeat concat]. apply Forall_app. split; [|done].
  clear. induction n as [|n IH]; [constructor|].
  cbn [repeat concat]. apply Forall_app. split; [by repeat constructor | done].
Qed.

Lemma encode_ascii n v : forall level, all_ascii (encode n level v).
Proof.
  induction v as [| b | s | l IH | d IH] using pyval_ind; intros level.
  - by repeat constructor.
  - destruct b; by repeat constructor.
  - apply encode_basestring_ascii_ascii.
  - destruct l as [|x l]; [by repeat constructor|].
    unfold encode. cbn [complete_text]. fold (encode n). fold (newline n).
    repeat (apply Forall_app; split); try apply newline_ascii;
      try (by repeat constructor).
    apply join_ascii.
    + apply Forall_app. split; [by repeat constructor | apply newline_ascii].
    + apply Forall_forall. intros p Hp.
      apply list_elem_of_fmap in Hp as (y & -> & Hy).
      rewrite Forall_forall in IH. by apply IH.
  - destruct d as [|kv d]; [by repeat constructor|].
    unfold encode. cbn [complete_text]. fold (encode n). fold (newline n).
    repeat (apply Forall_app; split); try apply newline_ascii;
      try (by repeat constructor).
    apply join_ascii.
    + apply Forall_app. split; [by repeat constructor | apply newline_ascii].
    + apply Forall_forall. intros p Hp.
      apply list_elem_of_fmap in Hp as (y & -> & Hy).
      rewrite Forall_forall in IH.
      repeat (apply Forall_app; split);
        [apply encode_basestring_ascii_ascii | by repeat constructor | by apply IH].
Qed.



(** ** The output of [main] read back *)

Lemma scalar_str_stable s : scalar_str s -> stable_str s = true.
Proof.
  intros H. unfold stable_str. apply andb_true_iff. split.
  - unfold valid_str. apply forallb_forall. intros c Hc.
    unfold scalar_str in H. rewrite Forall_forall in H.
    specialize (H c ltac:(by apply list_elem_of_In)).
    unfold scalar_char in H. by apply andb_true_iff in H as [[? _]%andb_true_iff _].
  - induction H as [|c s Hc Hs IH]; [done|].
    destruct s as [|c2 s]; [done|].
    change (no_surrogate_pair (c :: c2 :: s))
      with (negb (is_high_surrogate c && is_low_surrogate c2)
            && no_surrogate_pair (c2 :: s)).
    rewrite IH.
    unfold scalar_char in Hc.
    apply andb_true_iff in Hc as [[_ Hh%negb_true_iff]%andb_true_iff _].
    by rewrite Hh.
Qed.

Lemma scalar_lstrip s : scalar_str s -> scalar_str (lstrip s).
Proof.
  induction 1 as [|c s Hc Hs IH]; [constructor|]. simpl.
  destruct (isspace c); [done | by constructor].
Qed.

Lemma scalar_strip s : scalar_str s -> scalar_str (strip s).
Proof.
  intros H. unfold strip, rstrip, scalar_str.
  apply Forall_reverse, scalar_lstrip, Forall_reverse, scalar_lstrip, H.
Qed.

Lemma scalar_replace_from old k s :
  scalar_str s -> scalar_str (replace_from old [] k s).
Proof.
  intros H. revert k. induction H as [|c s Hc Hs IH]; intros k; [constructor|].
  cbn [replace_from]. destruct k; [|apply IH].
  destruct (startswith old (c :: s)); [apply IH | constructor; [done | apply IH]].
Qed.

Lemma scalar_replace old s : scalar_str s -> scalar_str (replace old [] s).
Proof.
  intros H. unfold replace. destruct old as [|x old].
  - cbn [app]. induction H as [|c s Hc Hs IH]; [constructor|]. by constructor.
  - by apply scalar_replace_from.
Qed.

Lemma scalar_split sep s : scalar_str s -> Forall scalar_str (split sep s).
Proof.
  induction 1 as [|c s Hc Hs IH]; [by repeat constructor|].
  cbn [split]. destruct (c =? sep); [constructor; [constructor | done]|].
  destruct (split sep s) as [|l ls]; [by repeat constructor|].
  apply Forall_cons in IH as [Hl Hls]. constructor; [by constructor | done].
Qed.

Lemma step_record_scalar st line :
  scalar_str line -> scalar_record (fst st) -> scalar_record (fst (step_record st line)).
Proof.
  intros Hl (Hi & He & Hw & Hs). unfold step_record, scalar_record.
  pose proof (scalar_strip _ Hl) as Hsl.
  repeat match goal with
         | |- context [if ?b then _ else _] => destruct b
         end; cbn [fst personal_info education work_experience skills];
    rewrite ?Forall_app; repeat split; try done;
    try (by repeat constructor);
    apply dict_set_Forall; try done; cbn [snd];
    by apply scalar_strip, scalar_replace.
Qed.

Lemma run_record_scalar lines st :
  Forall scalar_str lines -> scalar_record (fst st) ->
  scalar_record (fst (run_record lines st)).
Proof.
  intros H. revert st. induction H as [|line lines Hl _ IH]; intros st Hst; [done|].
  cbn [run_record fold_left]. apply IH. by apply step_record_scalar.
Qed.

Lemma classified_stable text :
  scalar_str text -> stable_record (classified (Some text)) = true.
Proof.
  intros Ht.
  assert (scalar_record (classified (Some text))) as (Hi & He & Hw & Hs).
  { unfold classified. destruct (falsy (Some text)).
    - unfold scalar_record. cbn. repeat split; constructor.
    - apply run_record_scalar; [by apply scalar_split|].
      unfold scalar_record. cbn. repeat split; constructor. }
  destruct (classified_tidy (Some text)) as (Hk & Hp & _).
  assert (forall l, Forall scalar_str l -> forallb stable_str l = true) as Hl.
  { intros l Hfl. apply forallb_forall. intros x Hx.
    rewrite Forall_forall in Hfl. by apply scalar_str_stable, Hfl, list_elem_of_In. }
  unfold stable_record. rewrite !andb_true_iff. repeat split; try by apply Hl.
  - by apply distinct_keys_NoDup.
  - apply forallb_forall. intros kv Hkv. apply list_elem_of_In in Hkv.
    rewrite Forall_forall in Hi, Hp.
    destruct (Hp kv Hkv) as [[-> | ->] _];
      (apply andb_true_iff; split; [reflexivity | by apply scalar_str_stable, Hi]).
Qed.



(** ** Counting the stored lines *)

Lemma step_record_active st line :
  active (snd st) ->
  active (snd (step_record st line)) /\
  stored (fst (step_record st line))
  = (stored (fst st) + if is_plain line then 1 else 0)%nat.
Proof.
  intros H. rewrite step_record_first_match. unfold is_plain, stored, active.
  destruct (first_match line) as [[| | | |]|]; cbn [fst snd education work_experience skills];
    try (split; [tauto | cbv iota; lia]).
  destruct H as [-> | [-> | ->]]; cbn [section_is];
    match goal with |- context [str_eqb ?a ?b] =>
      let v := eval vm_compute in (str_eqb a b) in change (str_eqb a b) with v end;
    repeat match goal with |- context [str_eqb ?a ?b] =>
      let v := eval vm_compute in (str_eqb a b) in change (str_eqb a b) with v end;
    cbv iota; cbn [fst snd education work_experience skills];
    rewrite ?length_app; cbn [length]; (split; [tauto | lia]).
Qed.

Lemma run_record_active lines st :
  active (snd st) ->
  stored (fst (run_record lines st))
  = (stored (fst st) + length (List.filter is_plain lines))%nat.
Proof.
  revert st. induction lines as [|line lines IH]; intros st H.
  - simpl. lia.
  - cbn [run_record fold_left List.filter].
    destruct (step_record_active st line H) as [Ha Hs].
    fold (run_record lines (step_record st line)). rewrite (IH _ Ha), Hs.
    destruct (is_plain line); cbn [length]; lia.
Qed.

(** X21. Once a section is current no line is lost or duplicated: if the
    first line of the text is a section header, the three lists together hold
    exactly as many entries as the remaining lines without a label. *)
Theorem stored_lines_count (text header : pystr) (rest : list pystr)
    (r : rule) (w : world) :
  split 0x0A text = header :: rest ->
  first_match header = Some r ->
  r <> NameRule -> r <> EmailRule ->
  exists rec,
    fst (classify_text (Some text) w) = Ok (record_obj rec) /\
    stored rec = length (List.filter is_plain rest).
Proof.
  intros Hsplit Hh Hn He. exists (classified (Some text)).
  split; [apply classify_text_result|].
  unfold classified. destruct (falsy (Some text)) eqn:E.
  - destruct text; [|done]. simpl in Hsplit. injection Hsplit as <- <-.
    by vm_compute in Hh.
  - change (default [] (Some text)) with text. rewrite Hsplit.
    cbn [run_record fold_left]. fold (run_record rest (step_record (empty_record, None) header)).
    rewrite run_record_active.
    + rewrite step_record_first_match, Hh. by destruct r.
    + rewrite step_record_first_match, Hh. unfold active.
      destruct r; cbn [snd]; tauto.
Qed.

Lemma stored_lines_count_witness :
  exists rec,
    fst (classify_text (Some sample_sections) (World [] [])) = Ok (record_obj rec) /\
    stored rec = 3%nat.
Proof.
  apply (stored_lines_count sample_sections (py "Education")
           [py "BSc"; []; py "Name: Jane"; py "Skills"; py "Rocq"]
           EducationRule (World [] []));
    [reflexivity | reflexivity | discriminate | discriminate].
Defined.

(** * Examples

    The library layer on sample inputs, with the results Python gives. *)

Example strip_ex : strip (py "  Name: Jane Doe ") = py "Name: Jane Doe".
Proof. reflexivity. Qed.

Example strip_unicode_ex : strip [0x3000; 0x1F; 0x61; 0xA0; 0x62; 0x85] = [0x61; 0xA0; 0x62].
Proof. reflexivity. Qed.

Example split_ex : split 0x0A [0x61; 0x0A; 0x0A; 0x62] = [[0x61]; []; [0x62]].
Proof. reflexivity. Qed.

Example split_empty_ex : split 0x0A [] = [[]].
Proof. reflexivity. Qed.

Example replace_ex : replace (py "aa") [] (py "aaaXaa") = py "aX".
Proof. reflexivity. Qed.

Example replace_empty_old_ex : replace [] (py "-") (py "abc") = py "-a-b-c-".
Proof. reflexivity. Qed.

Example contains_ex :
  contains (py "Education") (py "Continuing Education courses") = true.
Proof. reflexivity. Qed.

(** The JSON text, with [indent=4], of a record with the name ["A\u00e9"]
    and the skills ["x"] and U+1F600. *)
Example json_text_ex :
  json_text 4 (record_obj (Record_ [(py "name", [0x41; 0xE9])] [] []
                                    [py "x"; [0x1F600]]))
  = [
     123; 10; 32; 32; 32; 32; 34; 112; 101; 114; 115; 111; 110; 97; 108;
     95; 105; 110; 102; 111; 34; 58; 32; 123; 10; 32; 32; 32; 32; 32;
     32; 32; 32; 34; 110; 97; 109; 101; 34; 58; 32; 34; 65; 92; 117; 48;
     48; 101; 57; 34; 10; 32; 32; 32; 32; 125; 44; 10; 32; 32; 32; 32;
     34; 101; 100; 117; 99; 97; 116; 105; 111; 110; 34; 58; 32; 91; 93;
     44; 10; 32; 32; 32; 32; 34; 119; 111; 114; 107; 95; 101; 120; 112;
     101; 114; 105; 101; 110; 99; 101; 34; 58; 32; 91; 93; 44; 10; 32;
     32; 32; 32; 34; 115; 107; 105; 108; 108; 115; 34; 58; 32; 91; 10;
     32; 32; 32; 32; 32; 32; 32; 32; 34; 120; 34; 44; 10; 32; 32; 32;
     32; 32; 32; 32; 32; 34; 92; 117; 100; 56; 51; 100; 92; 117; 100;
     101; 48; 48; 34; 10; 32; 32; 32; 32; 93; 10; 125]%N.
Proof. vm_compute. reflexivity. Qed.

(** A dump with room for three nested containers: a list three deep is
    written in full; one four deep stops where its third list would open,
    as [json.dump] does when the recursion limit is that near. *)
Example iterencode_room_ex :
  iterencode (py "  ") (py ",") (py ": ") 3 0 (PList [PList [PList []]])
  = (py "[" ++ [0x0A] ++ py "  [" ++ [0x0A] ++ py "    []" ++ [0x0A] ++ py "  ]"
     ++ [0x0A] ++ py "]", true) /\
  iterencode (py "  ") (py ",") (py ": ") 3 0
    (PList [PStr (py "a"); PList [PList [PList []]]])
  = (py "[" ++ [0x0A] ++ py "  " ++ [0x22] ++ py "a" ++ [0x22] ++ py ","
     ++ [0x0A] ++ py "  [" ++ [0x0A] ++ py "    ", false).
Proof. split; reflexivity. Qed.

Example json_loads_ex :
  json_loads (py "{ }") = Ok (PDict []) /\
  json_loads (py "[null, true ,false]") = Ok (PList [PNone; PBool true; PBool false]) /\
  json_loads (py "[1]") = Raise NumberLiteral /\
  json_loads (py "[] x") = Raise (JSONDecodeError (py "Extra data")) /\
  json_loads [] = Raise (JSONDecodeError (py "Expecting value")).
Proof. repeat split; vm_compute; reflexivity. Qed.

(** Two of the sample inputs of the specification. *)
Example classify_name_email_ex :
  fst (classify_text (Some (py "Name: Jane Doe" ++ [0x0A] ++ py "Email: jane@x.com"))
         (World [] []))
  = Ok (record_obj (Record_ [(py "name", py "Jane Doe"); (py "email", py "jane@x.com")]
                            [] [] [])).
Proof. vm_compute. reflexivity. Qed.

Example classify_sections_ex :
  fst (classify_text
         (Some (py "Education" ++ [0x0A] ++ py "BS Computer Science" ++ [0x0A]
                ++ py "Experience" ++ [0x0A] ++ py "Engineer at Acme"))
         (World [] []))
  = Ok (record_obj (Record_ [] [py "BS Computer Science"] [py "Engineer at Acme"] [])).
Proof. vm_compute. reflexivity. Qed.
